(** * Daily.dev Streak Keeper: the streak state machine and its schedule

    A shallow embedding of [src/js/background.js]: the handlers that read and
    write [chrome.storage.local], the two reconciliation paths
    ([updateStreak], [updateStreakWithCount]), the two forced syncs, the alarm
    listener and [getNextReminderTime], followed by the properties of the
    specification that concern them.

    Conventions of the model.
    - [chrome.storage.local] is a finite map from key names to JavaScript
      values; [set] merges the given items into it.
    - Each callback runs to completion at one reading of the clock (the
      platform does not preempt a callback); what a callback closes over and
      what the platform hands it (script results, [lastError]) are explicit
      arguments.
    - A handler is run together with the callbacks of its own storage calls:
      what [get] read and whether [set] succeeded are delivered before any
      other handler runs.  The platform may run other handlers in between;
      what is claimed of such interleavings is stated of the writes a handler
      issues ([writes]), landing on any store.
    - Local time has a fixed offset to UTC, so a calendar day lasts
      86,400,000 ms; changes of the offset (daylight saving) are outside the
      model.
    - JavaScript numbers are the integers together with [NaN] and the two
      infinities; fractions are outside the model.  A sum is rounded to the
      nearest double ([to_double]).  [parseInt] reads a run of digits as the
      integer it spells: runs that spell more than 2^53, which [parseInt]
      rounds, are outside the model.
    - Texts are ASCII.
    - Console output and the body text of notifications are not recorded. *)

From Stdlib Require Import ZArith Lia Bool.
From stdpp Require Import gmap strings list fin_maps pretty.
From Stdlib Require Import Ascii.

Open Scope Z_scope.

(** ** JavaScript values *)

Inductive number :=
| NInt (z : Z)
| NaN
| PosInf
| NegInf.

Inductive value :=
| VUndefined
| VNull
| VBool (b : bool)
| VNum (n : number)
| VStr (s : string).

#[global] Instance number_eq_dec : EqDecision number.
Proof. solve_decision. Defined.

#[global] Instance value_eq_dec : EqDecision value.
Proof. solve_decision. Defined.

(** What an injected page script reports as the streak count:
    [{number|null}] in the source's own words. *)
Inductive observed :=
| ONull
| ONum (n : number).

Definition value_of_observed (o : observed) : value :=
  match o with
  | ONull => VNull
  | ONum n => VNum n
  end.

(** [ToBoolean]: what [if (x)], [!x] and [x && y] test. *)
Definition truthy (v : value) : bool :=
  match v with
  | VUndefined | VNull => false
  | VBool b => b
  | VNum (NInt z) => negb (z =? 0)
  | VNum NaN => false
  | VNum PosInf | VNum NegInf => true
  | VStr s => negb (String.eqb s "")
  end.

(** [a === b]; [NaN] is not equal to itself. *)
Definition strict_eq (a b : value) : bool :=
  match a, b with
  | VUndefined, VUndefined => true
  | VNull, VNull => true
  | VBool x, VBool y => Bool.eqb x y
  | VNum (NInt x), VNum (NInt y) => x =? y
  | VNum PosInf, VNum PosInf => true
  | VNum NegInf, VNum NegInf => true
  | VStr x, VStr y => String.eqb x y
  | _, _ => false
  end.

(** [isNaN(x)] on a script result ([null] converts to 0). *)
Definition isNaN (o : observed) : bool :=
  match o with
  | ONum NaN => true
  | _ => false
  end.

Definition observed_truthy (o : observed) : bool := truthy (value_of_observed o).

(** The double nearest to an integer, ties going to the even significand:
    integers up to 2^53 in size are doubles themselves, larger ones keep 53
    significant bits, and from 2^1024 - 2^970 on the result is infinite. *)
Definition to_double (z : Z) : number :=
  let a := Z.abs z in
  if a <? 2 ^ 53 then NInt z else
  let e := Z.log2 a - 52 in
  let q := a / 2 ^ e in
  let r := a mod 2 ^ e in
  let half := 2 ^ (e - 1) in
  let q' := if (half <? r) || ((r =? half) && Z.odd q) then q + 1 else q in
  let m := q' * 2 ^ e in
  if 2 ^ 1024 <=? m then (if z <? 0 then NegInf else PosInf)
  else NInt (if z <? 0 then - m else m).

(** [x + 1]: the sum of two doubles after [ToNumber], or concatenation when
    [x] is a string. *)
Definition js_plus_one (v : value) : value :=
  match v with
  | VUndefined => VNum NaN
  | VNull => VNum (NInt 1)
  | VBool b => VNum (NInt (if b then 2 else 1))
  | VNum (NInt z) => VNum (to_double (z + 1))
  | VNum n => VNum n
  | VStr s => VStr (s +:+ "1")
  end.

(** [hay.includes(needle)] *)
Fixpoint includes (needle hay : string) : bool :=
  String.prefix needle hay ||
  match hay with
  | EmptyString => false
  | String _ rest => includes needle rest
  end.

(** ** The clock and [Date] *)

Record clock := { now : Z; tzOffsetMs : Z }.

Definition msPerDay : Z := 86400000.
Definition msPerHour : Z := 3600000.
Definition msPerMinute : Z := 60000.

(** Local calendar day (days since 1970-01-01 local) and the instant at
    which it starts. *)
Definition localDay (c : clock) : Z := (now c + tzOffsetMs c) / msPerDay.
Definition startOfDay (c : clock) (day : Z) : Z := day * msPerDay - tzOffsetMs c.

Definition weekdayName (w : Z) : string :=
  if decide (w = 0) then "Sun" else
  if decide (w = 1) then "Mon" else
  if decide (w = 2) then "Tue" else
  if decide (w = 3) then "Wed" else
  if decide (w = 4) then "Thu" else
  if decide (w = 5) then "Fri" else "Sat".

Definition monthName (m : Z) : string :=
  if decide (m = 1) then "Jan" else
  if decide (m = 2) then "Feb" else
  if decide (m = 3) then "Mar" else
  if decide (m = 4) then "Apr" else
  if decide (m = 5) then "May" else
  if decide (m = 6) then "Jun" else
  if decide (m = 7) then "Jul" else
  if decide (m = 8) then "Aug" else
  if decide (m = 9) then "Sep" else
  if decide (m = 10) then "Oct" else
  if decide (m = 11) then "Nov" else "Dec".

(** Year, month and day of the month of a day number (proleptic Gregorian
    calendar). *)
Definition civil (day : Z) : Z * Z * Z :=
  let z := day + 719468 in
  let era := z / 146097 in
  let doe := z - era * 146097 in
  let yoe := (doe - doe / 1460 + doe / 36524 - doe / 146096) / 365 in
  let doy := doe - (365 * yoe + yoe / 4 - yoe / 100) in
  let mp := (5 * doy + 2) / 153 in
  let d := doy - (153 * mp + 2) / 5 + 1 in
  let m := if mp <? 10 then mp + 3 else mp - 9 in
  let y := yoe + era * 400 + (if m <=? 2 then 1 else 0) in
  (y, m, d).

Definition pad (width : nat) (s : string) : string :=
  String.concat "" (replicate (width - String.length s)%nat "0") +:+ s.

(** [new Date(...).toDateString()], e.g. ["Mon Nov 02 2026"]. *)
Definition toDateString (day : Z) : string :=
  let '(y, m, d) := civil day in
  weekdayName ((day + 4) `mod` 7) +:+ " " +:+ monthName m +:+ " " +:+
  pad 2 (pretty (Z.abs d)) +:+ " " +:+
  (if y <? 0 then "-" else "") +:+ pad 4 (pretty (Z.abs y)).

Definition today (c : clock) : string := toDateString (localDay c).

(** [d = new Date(); d.setDate(d.getDate() - 1); d.toDateString()] *)
Definition yesterdayString (c : clock) : string := toDateString (localDay c - 1).

(** [reminder.setHours(hour, minute, 0, 0)] on a date of the given local
    day; hours and minutes out of range carry over, as in JavaScript. *)
Definition setHours (c : clock) (day hour minute : Z) : Z :=
  startOfDay c day + hour * msPerHour + minute * msPerMinute.

(** ** Constants of [background.js] *)

Definition DAILY_DEV_URL : string := "https://app.daily.dev/".
Definition DAILY_CHECK_MINUTES : Z := 1440.
Definition FIRST_REMINDER_HOUR : Z := 19.
Definition FIRST_REMINDER_MINUTE : Z := 0.
Definition SECOND_REMINDER_HOUR : Z := 22.
Definition SECOND_REMINDER_MINUTE : Z := 0.
Definition FIRST_FAILSAFE_HOUR : Z := 20.
Definition FIRST_FAILSAFE_MINUTE : Z := 0.
Definition SECOND_FAILSAFE_HOUR : Z := 22.
Definition SECOND_FAILSAFE_MINUTE : Z := 15.
Definition FORCE_SYNC_HOUR : Z := 18.
Definition FORCE_SYNC_MINUTE : Z := 0.

(** ** What the handlers ask of the platform *)

Inductive script := ClickFirstArticle | ExtractStreakCountFromPage.

(** The listeners the handlers add to [chrome.tabs.onUpdated], with the
    variables each closes over. *)
Inductive listener :=
| ArticleLoadListener
| ManualSyncTabLoadListener (tabId : Z)
| ForceSyncTabLoadListener (tabId : Z) (today0 : string) (alreadyMaintained : bool)
| FailsafeTabLoadListener (tabId : Z).

(** The anonymous callbacks handed to [tabs.create], [scripting.executeScript]
    and [setTimeout], with the variables each closes over. *)
Inductive callback :=
| ClickResults
| ArticleStreakResults
| ArticleLoadTimeout
| ManualSyncTabCreated
| ManualSyncExtract (tabId : Z)
| ManualSyncResults (tabId : Z)
| ManualSyncTimeout (tabId : Z)
| ForceSyncTabCreated (today0 : string) (alreadyMaintained : bool)
| ForceSyncExtract (tabId : Z) (today0 : string) (alreadyMaintained : bool)
| ForceSyncResults (tabId : Z) (today0 : string) (alreadyMaintained : bool)
| ForceSyncTimeout (tabId : Z) (today0 : string) (alreadyMaintained : bool)
| FailsafeTabCreated
| FailsafeClick (tabId : Z)
| FailsafeTimeout (tabId : Z).

Inductive response :=
| Success (streakCount : value)
| Failure (error : string).

Inductive effect :=
| StorageGet (keys : list string) (ok : bool)
| StorageSet (items : list (string * value)) (ok : bool)
| NotificationsCreate (title : string) (priority : Z)
| TabsCreate (url : string) (active : bool) (k : callback)
| TabsRemove (tabId : Z)
| ExecuteScript (tabId : Z) (f : script) (k : callback)
| AddListener (l : listener)
| RemoveListener (l : listener)
| SetTimeout (k : callback) (ms : Z)
| AlarmsCreate (name : string) (periodInMinutes : Z) (when : Z)
| SendResponse (r : response).

(** The status object [clickFirstArticle] returns. *)
Record status := {
  articlesFound : bool;
  linkFound : bool;
  clicked : bool;
  articleUrl : option string;
  error : option string;
  streakCount : observed
}.

(** ** The world: persisted storage and the outcome of each storage access *)

Record world := {
  storage : gmap string value;
  lastError : nat -> bool;
  accesses : nat
}.

(** A handler maps the world to its result, the world it leaves and the
    platform calls it made, in order. *)
Definition M (A : Type) : Type := world -> A * world * list effect.

Definition ret {A} (a : A) : M A := fun w => (a, w, []).

Definition bind {A B} (m : M A) (k : A -> M B) : M B := fun w =>
  let '(a, w1, t1) := m w in
  let '(b, w2, t2) := k a w1 in
  (b, w2, t1 ++ t2).

Notation "x <~ m ;; k" := (bind m (fun x => k))
  (at level 100, m at next level, right associativity).
Notation "m ;;; k" := (bind m (fun _ => k))
  (at level 100, right associativity).

Definition run {A} (m : M A) (w : world) : world := snd (fst (m w)).
Definition effects {A} (m : M A) (w : world) : list effect := snd (m w).

Definition emit (e : effect) : M unit := fun w => (tt, w, [e]).

(** The result object of [get(keys)]: the stored entries under [keys]. *)
Definition pick (keys : list string) (m : gmap string value) : gmap string value :=
  filter (fun kv => kv.1 ∈ keys) m.

(** [result.key]; a missing property reads as [undefined]. *)
Definition field (result : gmap string value) (key : string) : value :=
  default VUndefined (result !! key).

(** [set(items)] merges the items into the stored entries. *)
Definition merge_items (items : list (string * value)) (m : gmap string value)
  : gmap string value :=
  foldl (fun acc kv => <[kv.1 := kv.2]> acc) m items.

(** One more storage access has been made. *)
Definition count_access (w : world) : world :=
  {| storage := storage w; lastError := lastError w; accesses := S (accesses w) |}.

Definition store (s : gmap string value) (w : world) : world :=
  {| storage := s; lastError := lastError w; accesses := accesses w |}.

(** [chrome.storage.local.get(keys, callback)]: [None] when the callback
    finds [chrome.runtime.lastError] set. *)
Definition storage_get (keys : list string) : M (option (gmap string value)) := fun w =>
  let failed := lastError w (accesses w) in
  (if failed then None else Some (pick keys (storage w)),
   count_access w,
   [StorageGet keys (negb failed)]).

(** [chrome.storage.local.set(items, callback)]: [false] when the callback
    finds [chrome.runtime.lastError] set, and then nothing was stored. *)
Definition storage_set (items : list (string * value)) : M bool := fun w =>
  let failed := lastError w (accesses w) in
  (negb failed,
   count_access (if failed then w else store (merge_items items (storage w)) w),
   [StorageSet items (negb failed)]).

(** [!result.lastVisit || result.lastVisit !== today] *)
Definition notVisitedToday (c : clock) (result : gmap string value) : bool :=
  negb (truthy (field result "lastVisit")) ||
  negb (strict_eq (field result "lastVisit") (VStr (today c))).

(** ** The two reconciliation paths *)

Definition syncedItems (c : clock) (streakCount : value) : list (string * value) :=
  [("streak", streakCount);
   ("lastVisit", VStr (today c));
   ("streakMaintainedToday", VBool true);
   ("syncedWithDailyDev", VBool true);
   ("lastSyncTime", VNum (NInt (now c)))].

Definition updateStreakWithCount (c : clock) (streakCount : value) : M unit :=
  result <~ storage_get ["lastVisit"] ;;
  match result with
  | None => ret tt
  | Some result =>
    let isFirstVisitToday := notVisitedToday c result in
    ok <~ storage_set (syncedItems c streakCount) ;;
    if ok then
      if isFirstVisitToday
      then emit (NotificationsCreate "Daily.dev Streak Maintained!" 0)
      else ret tt
    else ret tt
  end.

(** [newStreak] of [updateStreak]: 1, or the stored streak plus one when the
    last visit was yesterday. *)
Definition newStreak (c : clock) (result : gmap string value) : value :=
  if strict_eq (field result "lastVisit") (VStr (yesterdayString c))
  then js_plus_one (field result "streak")
  else VNum (NInt 1).

Definition internalItems (c : clock) (streak : value) : list (string * value) :=
  [("streak", streak);
   ("lastVisit", VStr (today c));
   ("streakMaintainedToday", VBool true);
   ("syncedWithDailyDev", VBool false)].

Definition updateStreak (c : clock) : M unit :=
  result <~ storage_get ["streak"; "lastVisit"] ;;
  match result with
  | None => ret tt
  | Some result =>
    if notVisitedToday c result then
      ok <~ storage_set (internalItems c (newStreak c result)) ;;
      if ok
      then emit (NotificationsCreate "Daily.dev Streak Maintained!" 0)
      else ret tt
    else ret tt
  end.

(** ** Page load: click an article, then reconcile *)

Definition clickArticleAndUpdateStreak (tabId : Z) : M unit :=
  emit (ExecuteScript tabId ClickFirstArticle ClickResults).

Definition handleDailyDevPageLoad (c : clock) (tabId : Z) : M unit :=
  result <~ storage_get ["lastVisit"] ;;
  match result with
  | None => ret tt
  | Some result =>
    if notVisitedToday c result
    then clickArticleAndUpdateStreak tabId
    else ret tt
  end.

(** The listener registered on [chrome.tabs.onUpdated] when the script is
    loaded. *)
Definition onTabUpdated (c : clock) (tabId : Z) (complete : bool)
    (url : option string) : M unit :=
  if complete && from_option (includes "daily.dev") false url
  then handleDailyDevPageLoad c tabId
  else ret tt.

Definition is_null (o : observed) : bool :=
  match o with ONull => true | ONum _ => false end.

(** [status.articleUrl && status.articleUrl.includes("/posts/")] *)
Definition onArticlePage (st : status) : bool :=
  from_option (includes "/posts/") false (articleUrl st).

(** The callback of [executeScript(clickFirstArticle)]; [results] is [None]
    when [results], [results[0]] or [results[0].result] is missing. *)
Definition clickResults (c : clock) (err : bool) (results : option status) : M unit :=
  if err then ret tt else
  match results with
  | None => ret tt
  | Some st =>
    if clicked st || onArticlePage st then
      if negb (is_null (streakCount st)) && negb (isNaN (streakCount st))
      then updateStreakWithCount c (value_of_observed (streakCount st))
      else updateStreak c
    else if articlesFound st && linkFound st then
      emit (AddListener ArticleLoadListener) ;;;
      emit (SetTimeout ArticleLoadTimeout 15000)
    else ret tt
  end.

(** [articleLoadListener] of [clickArticleAndUpdateStreak]. *)
Definition articleLoadListener (tabId : Z) (complete : bool) (url : option string)
  : M unit :=
  if complete && from_option (includes "/posts/") false url then
    emit (RemoveListener ArticleLoadListener) ;;;
    emit (ExecuteScript tabId ExtractStreakCountFromPage ArticleStreakResults)
  else ret tt.

(** [results && results[0] && results[0].result && !isNaN(results[0].result)];
    [results] is [None] when [results] or [results[0]] is missing. *)
Definition extracted (results : option observed) : option observed :=
  match results with
  | Some r => if observed_truthy r && negb (isNaN r) then Some r else None
  | None => None
  end.

(** The callback of [executeScript(extractStreakCountFromPage)] on the
    article page. *)
Definition articleStreakResults (c : clock) (err : bool) (results : option observed)
  : M unit :=
  if err then updateStreak c else
  match extracted results with
  | Some r => updateStreakWithCount c (value_of_observed r)
  | None => updateStreak c
  end.

(** ** Manual sync requested by the popup *)

Definition onMessage (action : string) : M unit :=
  if String.eqb action "forceSyncStreak"
  then emit (TabsCreate DAILY_DEV_URL false ManualSyncTabCreated)
  else ret tt.

Definition manualSyncTabCreated (err : bool) (tabId : Z) : M unit :=
  if err then emit (SendResponse (Failure "Could not create tab")) else
  emit (AddListener (ManualSyncTabLoadListener tabId)) ;;;
  emit (SetTimeout (ManualSyncTimeout tabId) 30000).

Definition manualSyncTabLoadListener (tab tabId : Z) (complete : bool) : M unit :=
  if (tabId =? tab) && complete then
    emit (RemoveListener (ManualSyncTabLoadListener tab)) ;;;
    emit (SetTimeout (ManualSyncExtract tab) 3000)
  else ret tt.

Definition syncItems (c : clock) (streakCount : value) : list (string * value) :=
  [("streak", streakCount);
   ("syncedWithDailyDev", VBool true);
   ("lastSyncTime", VNum (NInt (now c)))].

Definition manualSyncResults (c : clock) (tab : Z) (err : bool)
    (results : option observed) : M unit :=
  emit (TabsRemove tab) ;;;
  if err then emit (SendResponse (Failure "Script execution failed")) else
  match extracted results with
  | Some r =>
    let streakCount := value_of_observed r in
    ok <~ storage_set (syncItems c streakCount) ;;
    if ok
    then emit (SendResponse (Success streakCount))
    else emit (SendResponse (Failure "Storage update failed"))
  | None => emit (SendResponse (Failure "Could not extract streak count"))
  end.

Definition manualSyncTimeout (tab : Z) : M unit :=
  emit (RemoveListener (ManualSyncTabLoadListener tab)) ;;;
  emit (TabsRemove tab) ;;;
  emit (SendResponse (Failure "Timeout")).

(** ** Forced sync on the [forceStreakSync] alarm *)

Definition forceSyncStreakFromDailyDev (c : clock) : M unit :=
  result <~ storage_get ["lastVisit"] ;;
  match result with
  | None => ret tt
  | Some result =>
    let alreadyMaintained := strict_eq (field result "lastVisit") (VStr (today c)) in
    emit (TabsCreate DAILY_DEV_URL false (ForceSyncTabCreated (today c) alreadyMaintained))
  end.

Definition forceSyncTabCreated (today0 : string) (alreadyMaintained : bool)
    (err : bool) (tabId : Z) : M unit :=
  if err then ret tt else
  emit (AddListener (ForceSyncTabLoadListener tabId today0 alreadyMaintained)) ;;;
  emit (SetTimeout (ForceSyncTimeout tabId today0 alreadyMaintained) 30000).

Definition forceSyncTabLoadListener (tab : Z) (today0 : string)
    (alreadyMaintained : bool) (tabId : Z) (complete : bool) : M unit :=
  if (tabId =? tab) && complete then
    emit (RemoveListener (ForceSyncTabLoadListener tab today0 alreadyMaintained)) ;;;
    emit (SetTimeout (ForceSyncExtract tab today0 alreadyMaintained) 3000)
  else ret tt.

(** The items the alarm-triggered sync writes second, when the streak was
    already maintained. *)
Definition maintainedItems (today0 : string) : list (string * value) :=
  [("lastVisit", VStr today0); ("streakMaintainedToday", VBool true)].

Definition forceSyncResults (c : clock) (tab : Z) (today0 : string)
    (alreadyMaintained : bool) (err : bool) (results : option observed) : M unit :=
  emit (TabsRemove tab) ;;;
  if err then ret tt else
  match extracted results with
  | Some r =>
    let streakCount := value_of_observed r in
    ok <~ storage_set (syncItems c streakCount) ;;
    if ok then
      (if alreadyMaintained
       then storage_set (maintainedItems today0) ;;; ret tt
       else ret tt) ;;;
      emit (NotificationsCreate "Daily.dev Streak Synced" 0)
    else ret tt
  | None => ret tt
  end.

Definition forceSyncTimeout (tab : Z) (today0 : string) (alreadyMaintained : bool)
  : M unit :=
  emit (RemoveListener (ForceSyncTabLoadListener tab today0 alreadyMaintained)) ;;;
  emit (TabsRemove tab).

(** ** Schedule *)

(** [getNextReminderTime(hour, minute)]; every caller passes both arguments.
    [reminder.setDate(reminder.getDate() + 1)] moves the date to the same
    time of the next calendar day, which under the fixed UTC offset of the
    model is 86,400,000 ms later. *)
Definition getNextReminderTime (c : clock) (hour minute : Z) : Z :=
  let reminder := setHours c (localDay c) hour minute in
  if reminder <? now c then reminder + msPerDay else reminder.

Definition setupAlarms (c : clock) : M unit :=
  emit (AlarmsCreate "forceStreakSync" DAILY_CHECK_MINUTES
          (getNextReminderTime c FORCE_SYNC_HOUR FORCE_SYNC_MINUTE)) ;;;
  emit (AlarmsCreate "firstStreakReminder" DAILY_CHECK_MINUTES
          (getNextReminderTime c FIRST_REMINDER_HOUR FIRST_REMINDER_MINUTE)) ;;;
  emit (AlarmsCreate "secondStreakReminder" DAILY_CHECK_MINUTES
          (getNextReminderTime c SECOND_REMINDER_HOUR SECOND_REMINDER_MINUTE)) ;;;
  emit (AlarmsCreate "firstStreakFailsafe" DAILY_CHECK_MINUTES
          (getNextReminderTime c FIRST_FAILSAFE_HOUR FIRST_FAILSAFE_MINUTE)) ;;;
  emit (AlarmsCreate "secondStreakFailsafe" DAILY_CHECK_MINUTES
          (getNextReminderTime c SECOND_FAILSAFE_HOUR SECOND_FAILSAFE_MINUTE)).

Definition initialItems : list (string * value) :=
  [("streak", VNum (NInt 0));
   ("lastVisit", VNull);
   ("streakMaintainedToday", VBool false);
   ("syncedWithDailyDev", VBool false);
   ("lastSyncTime", VNull)].

(** The [chrome.runtime.onInstalled] listener: the callback of [set] only
    logs, and [setupAlarms] is called whatever its outcome. *)
Definition onInstalled (c : clock) : M unit :=
  storage_set initialItems ;;;
  setupAlarms c.

Definition checkStreakAndNotify (c : clock) (isUrgent : bool) : M unit :=
  result <~ storage_get ["streak"; "lastVisit"] ;;
  match result with
  | None => ret tt
  | Some result =>
    if notVisitedToday c result then
      emit (NotificationsCreate
              (if isUrgent
               then "URGENT: Daily.dev Streak About to Expire!"
               else "Daily.dev Streak Reminder")
              (if isUrgent then 2 else 1))
    else ret tt
  end.

Definition executeStreakFailsafe (c : clock) : M unit :=
  result <~ storage_get ["streak"; "lastVisit"] ;;
  match result with
  | None => ret tt
  | Some result =>
    if notVisitedToday c result
    then emit (TabsCreate DAILY_DEV_URL true FailsafeTabCreated)
    else ret tt
  end.

Definition failsafeTabCreated (err : bool) (tabId : Z) : M unit :=
  if err then ret tt else
  emit (AddListener (FailsafeTabLoadListener tabId)) ;;;
  emit (SetTimeout (FailsafeTimeout tabId) 30000).

Definition failsafeTabLoadListener (tab tabId : Z) (complete : bool) : M unit :=
  if (tabId =? tab) && complete then
    emit (RemoveListener (FailsafeTabLoadListener tab)) ;;;
    emit (SetTimeout (FailsafeClick tab) 1000)
  else ret tt.

(** The [chrome.alarms.onAlarm] listener. *)
Definition onAlarm (c : clock) (name : string) : M unit :=
  if String.eqb name "forceStreakSync" then forceSyncStreakFromDailyDev c else
  result <~ storage_get ["lastVisit"] ;;
  match result with
  | None => ret tt
  | Some result =>
    if notVisitedToday c result then
      if String.eqb name "firstStreakReminder" || String.eqb name "secondStreakReminder"
      then checkStreakAndNotify c (String.eqb name "secondStreakReminder")
      else if String.eqb name "firstStreakFailsafe" || String.eqb name "secondStreakFailsafe"
      then executeStreakFailsafe c
      else ret tt
    else ret tt
  end.

(** ** Everything the platform can call *)

Inductive event :=
| Installed
| AlarmFired (name : string)
| MessageReceived (action : string)
| TabUpdated (tabId : Z) (complete : bool) (url : option string)
| ListenerCalled (l : listener) (tabId : Z) (complete : bool) (url : option string)
| TabCreated (k : callback) (err : bool) (tabId : Z)
| ClickScriptDone (err : bool) (results : option status)
| ExtractScriptDone (k : callback) (err : bool) (results : option observed)
| TimerFired (k : callback).

(** One callback of the program, run to completion at clock reading [c].  A
    callback that was never registered for the kind of event does nothing. *)
Definition dispatch (c : clock) (ev : event) : M unit :=
  match ev with
  | Installed => onInstalled c
  | AlarmFired name => onAlarm c name
  | MessageReceived action => onMessage action
  | TabUpdated tabId complete url => onTabUpdated c tabId complete url
  | ListenerCalled ArticleLoadListener tabId complete url =>
      articleLoadListener tabId complete url
  | ListenerCalled (ManualSyncTabLoadListener tab) tabId complete _ =>
      manualSyncTabLoadListener tab tabId complete
  | ListenerCalled (ForceSyncTabLoadListener tab today0 am) tabId complete _ =>
      forceSyncTabLoadListener tab today0 am tabId complete
  | ListenerCalled (FailsafeTabLoadListener tab) tabId complete _ =>
      failsafeTabLoadListener tab tabId complete
  | TabCreated ManualSyncTabCreated err tabId => manualSyncTabCreated err tabId
  | TabCreated (ForceSyncTabCreated today0 am) err tabId =>
      forceSyncTabCreated today0 am err tabId
  | TabCreated FailsafeTabCreated err tabId => failsafeTabCreated err tabId
  | TabCreated _ _ _ => ret tt
  | ClickScriptDone err results => clickResults c err results
  | ExtractScriptDone ArticleStreakResults err results =>
      articleStreakResults c err results
  | ExtractScriptDone (ManualSyncResults tab) err results =>
      manualSyncResults c tab err results
  | ExtractScriptDone (ForceSyncResults tab today0 am) err results =>
      forceSyncResults c tab today0 am err results
  | ExtractScriptDone _ _ _ => ret tt
  | TimerFired ArticleLoadTimeout => emit (RemoveListener ArticleLoadListener)
  | TimerFired (ManualSyncExtract tab) =>
      emit (ExecuteScript tab ExtractStreakCountFromPage (ManualSyncResults tab))
  | TimerFired (ManualSyncTimeout tab) => manualSyncTimeout tab
  | TimerFired (ForceSyncExtract tab today0 am) =>
      emit (ExecuteScript tab ExtractStreakCountFromPage (ForceSyncResults tab today0 am))
  | TimerFired (ForceSyncTimeout tab today0 am) => forceSyncTimeout tab today0 am
  | TimerFired (FailsafeClick tab) => clickArticleAndUpdateStreak tab
  | TimerFired (FailsafeTimeout tab) => emit (RemoveListener (FailsafeTabLoadListener tab))
  | TimerFired _ => ret tt
  end.

(** The streak count an event brings from the page, if any. *)
Definition event_observation (ev : event) : option value :=
  match ev with
  | ClickScriptDone _ (Some st) => Some (value_of_observed (streakCount st))
  | ExtractScriptDone _ _ (Some r) => Some (value_of_observed r)
  | _ => None
  end.

(** The items of the [storage.set] calls among platform calls, in order. *)
Fixpoint writes (t : list effect) : list (list (string * value)) :=
  match t with
  | [] => []
  | StorageSet items _ :: rest => items :: writes rest
  | _ :: rest => writes rest
  end.

(** A handler that issues no [storage.set]. *)
Definition nowrites {A} (m : M A) : Prop :=
  forall w, writes (effects m w) = [].

(** The writes a handler other than the install handler can issue at clock
    reading [c], having read the store [s]: the internal path's items, built
    from what it read, when that showed no visit today; the items of the
    external-sync path or of a forced sync, holding the count the event
    brought; the second write of the alarm's sync, holding the date taken
    when the alarm fired. *)
Definition write_shape (c : clock) (ev : event) (s : gmap string value)
    (items : list (string * value)) : Prop :=
  (notVisitedToday c s = true /\
   items = internalItems c (newStreak c (pick ["streak"; "lastVisit"] s))) \/
  (exists v, event_observation ev = Some v /\
     (items = syncedItems c v \/ items = syncItems c v)) \/
  (exists tab today0 err results,
     ev = ExtractScriptDone (ForceSyncResults tab today0 true) err results /\
     items = maintainedItems today0).

(** A handler that leaves the stored state as it found it. *)
Definition readonly {A} (m : M A) : Prop :=
  forall w, storage (run m w) = storage w.

(** ** The invariant on the sync time *)

(** [lastSyncTime] holds a value other than [null] (or is not missing). *)
Definition hasSyncTime (s : gmap string value) : bool :=
  match field s "lastSyncTime" with
  | VNull | VUndefined => false
  | _ => true
  end.

(** [lastSyncTime] is non-null only if [syncedWithDailyDev] is true. *)
Definition syncInvariant (s : gmap string value) : Prop :=
  hasSyncTime s = true -> field s "syncedWithDailyDev" = VBool true.

(** The handlers whose first platform call is a storage access. *)
Definition storage_first_handlers (c : clock) (tabId : Z) (streakCount : value)
    (isUrgent : bool) (name : string) : list (M unit) :=
  [handleDailyDevPageLoad c tabId;
   updateStreakWithCount c streakCount;
   updateStreak c;
   forceSyncStreakFromDailyDev c;
   onInstalled c;
   checkStreakAndNotify c isUrgent;
   executeStreakFailsafe c;
   onAlarm c name].

(** ** Kinds of platform calls *)

Definition is_notification (e : effect) : bool :=
  match e with
  | NotificationsCreate _ _ => true
  | _ => false
  end.

(** The actions a handler takes on the strength of what it read or wrote:
    running the click or extraction script, notifying, opening a tab. *)
Definition dependent_action (e : effect) : bool :=
  match e with
  | NotificationsCreate _ _ | TabsCreate _ _ _ | ExecuteScript _ _ _ => true
  | _ => false
  end.

Definition read_or_notification (e : effect) : bool :=
  match e with
  | StorageGet _ _ | NotificationsCreate _ _ => true
  | _ => false
  end.

Definition is_storage_access (e : effect) : bool :=
  match e with
  | StorageGet _ _ | StorageSet _ _ => true
  | _ => false
  end.

Definition is_response (e : effect) : bool :=
  match e with
  | SendResponse _ => true
  | _ => false
  end.

(** An alarm that repeats daily and first fires within 24 hours of [c]. *)
Definition daily_alarm_from (c : clock) (e : effect) : bool :=
  match e with
  | AlarmsCreate _ period when =>
    (period * msPerMinute =? msPerDay) && (now c <=? when) && (when <? now c + msPerDay)
  | _ => false
  end.

Definition alarm_name (e : effect) : option string :=
  match e with
  | AlarmsCreate name _ _ => Some name
  | _ => None
  end.

(** The clock [ms] milliseconds later, and the clock reading a given instant. *)
Definition later (ms : Z) (c : clock) : clock :=
  {| now := now c + ms; tzOffsetMs := tzOffsetMs c |}.

Definition at_instant (t : Z) (c : clock) : clock :=
  {| now := t; tzOffsetMs := tzOffsetMs c |}.

(** ** Sample clocks and stores *)

(** Monday 2 November 2026, 19:00 local time, one hour east of UTC. *)
Definition monday_evening : clock :=
  {| now := 20759 * msPerDay + 18 * msPerHour; tzOffsetMs := msPerHour |}.

(** The same Monday, 23:00 local time. *)
Definition monday_night : clock :=
  {| now := 20759 * msPerDay + 22 * msPerHour; tzOffsetMs := msPerHour |}.

Definition stored (items : list (string * value)) : world :=
  {| storage := merge_items items ∅; lastError := fun _ => false; accesses := 0 |}.

(** The same store when the next storage access fails. *)
Definition failing (w : world) : world :=
  {| storage := storage w; lastError := fun n => Nat.eqb n (accesses w);
     accesses := accesses w |}.

(** Streak of 10 kept by internal tracking, already maintained on Monday. *)
Definition maintained_monday : world :=
  stored [("streak", VNum (NInt 10));
          ("lastVisit", VStr "Mon Nov 02 2026");
          ("streakMaintainedToday", VBool true);
          ("syncedWithDailyDev", VBool false);
          ("lastSyncTime", VNull)].

(** Streak of 5 kept by internal tracking, last maintained on Sunday. *)
Definition visited_sunday : world :=
  stored [("streak", VNum (NInt 5));
          ("lastVisit", VStr "Sun Nov 01 2026");
          ("streakMaintainedToday", VBool true);
          ("syncedWithDailyDev", VBool false);
          ("lastSyncTime", VNull)].

(** Streak of 5 synced with daily.dev on Sunday at 19:00 local time. *)
Definition synced_sunday : world :=
  stored [("streak", VNum (NInt 5));
          ("lastVisit", VStr "Sun Nov 01 2026");
          ("streakMaintainedToday", VBool true);
          ("syncedWithDailyDev", VBool true);
          ("lastSyncTime", VNum (NInt (20758 * msPerDay + 18 * msPerHour)))].

(** Streak of 6, last maintained on Friday. *)
Definition visited_friday : world :=
  stored [("streak", VNum (NInt 6));
          ("lastVisit", VStr "Fri Oct 30 2026");
          ("streakMaintainedToday", VBool true);
          ("syncedWithDailyDev", VBool false);
          ("lastSyncTime", VNull)].

(** Last maintained on Sunday, with no streak key stored. *)
Definition no_streak_sunday : world :=
  stored [("lastVisit", VStr "Sun Nov 01 2026")].

(** The same store when the storage access after the next one fails. *)
Definition write_fails (w : world) : world :=
  {| storage := storage w; lastError := fun n => Nat.eqb n (S (accesses w));
     accesses := accesses w |}.

(** Streak of 11, maintained on Tuesday. *)
Definition maintained_tuesday : world :=
  stored [("streak", VNum (NInt 11));
          ("lastVisit", VStr "Tue Nov 03 2026");
          ("streakMaintainedToday", VBool true);
          ("syncedWithDailyDev", VBool false);
          ("lastSyncTime", VNull)].

Definition fresh_install : world := stored initialItems.

(** What [clickFirstArticle] reports when it ran on an article page and read
    the given streak count. *)
Definition on_article (count : observed) : status :=
  {| articlesFound := true; linkFound := true; clicked := true;
     articleUrl := Some "https://app.daily.dev/posts/abc";
     error := None; streakCount := count |}.

(** ** The page scripts: reading the streak count off the page

    The page is what the scripts can ask of it: [getElementById] and
    [querySelectorAll], which throws on a selector the browser rejects.  Of
    an element the scripts read its text, two attributes, its tag, its [href]
    and the [href] of the links found inside it.  Texts are read as ASCII. *)

Record element := {
  textContent : string;
  innerText : option string;
  ariaLabel : option string;
  title : option string;
  tagName : string;
  href : option string;
  postLinkHref : option string;
  anyLinkHref : option string
}.

Inductive queried :=
| Threw (message : string)
| Elements (els : list element).

Record document := {
  getElementById : string -> option element;
  querySelectorAll : string -> queried;
  location_href : string
}.

Definition is_digit (a : ascii) : bool :=
  let n := nat_of_ascii a in (48 <=? n)%nat && (n <=? 57)%nat.

Definition lower (a : ascii) : ascii :=
  let n := nat_of_ascii a in
  if (65 <=? n)%nat && (n <=? 90)%nat then ascii_of_nat (n + 32) else a.

Fixpoint toLowerCase (s : string) : string :=
  match s with
  | EmptyString => EmptyString
  | String a rest => String (lower a) (toLowerCase rest)
  end.

(** [text.match(/\d+/g)]: the maximal runs of digits, in order; the empty
    list stands for [null].  [cur] is the run being read. *)
Fixpoint digitRunsFrom (cur : string) (s : string) : list string :=
  match s with
  | EmptyString => if String.eqb cur "" then [] else [cur]
  | String a rest =>
    if is_digit a then digitRunsFrom (cur +:+ String a "") rest
    else if String.eqb cur "" then digitRunsFrom "" rest
    else cur :: digitRunsFrom "" rest
  end.

Definition digitRuns (s : string) : list string := digitRunsFrom "" s.

(** [parseInt(m, 10)] on a run of digits: the integer the run spells. *)
Fixpoint parseDigits (acc : Z) (m : string) : Z :=
  match m with
  | EmptyString => acc
  | String a rest => parseDigits (acc * 10 + (Z.of_nat (nat_of_ascii a) - 48)) rest
  end.

Definition parseInt (m : string) : Z := parseDigits 0 m.

(** [parseInt(matches[0], 10)] when [s.match(/\d+/g)] found something. *)
Definition firstNumber (s : string) : option Z :=
  match digitRuns s with
  | m :: _ => Some (parseInt m)
  | [] => None
  end.

(** [el.textContent || el.innerText]; [None] is [undefined]. *)
Definition text_of (el : element) : option string :=
  if String.eqb (textContent el) "" then innerText el else Some (textContent el).

(** [text.toLowerCase().includes("streak")] *)
Definition mentionsStreak (text : string) : bool :=
  includes "streak" (toLowerCase text).

(** [if (s)] on an attribute value: neither [null] nor empty. *)
Definition attribute (a : option string) : option string :=
  match a with
  | Some s => if String.eqb s "" then None else Some s
  | None => None
  end.

(** A string literal of the source between its double quotes. *)
Definition quoted (s : string) : string :=
  String (ascii_of_nat 34) s +:+ String (ascii_of_nat 34) "".

Definition possibleSelectors : list string :=
  ["[data-testid=" +:+ quoted "reading-streak-header-button" +:+ "]";
   ".streak-counter";
   "[aria-label*=" +:+ quoted "streak" +:+ "]";
   "[title*=" +:+ quoted "streak" +:+ "]";
   ".streak-count";
   "[data-testid=" +:+ quoted "streak-count" +:+ "]";
   ".streak-number";
   "div:contains(" +:+ quoted "streak" +:+ ")";
   "span:contains(" +:+ quoted "streak" +:+ ")";
   "p:contains(" +:+ quoted "streak" +:+ ")"].

Definition streakRelatedSelector : string :=
  "[class*=" +:+ quoted "streak" +:+ "], [id*=" +:+ quoted "streak"
  +:+ "], [data-*=" +:+ quoted "streak" +:+ "]".

(** How a loop over elements ends: with the number it returns, with an
    exception, or by running out of elements. *)
Inductive scan :=
| Returned (n : Z)
| Thrown
| Finished.

(** The inner loop of the selector probing: the first element whose text
    holds a number and mentions a streak gives the count; an element without
    any text throws at [text.match]. *)
Fixpoint scanStreakTexts (els : list element) : scan :=
  match els with
  | [] => Finished
  | el :: rest =>
    match text_of el with
    | None => Thrown
    | Some text =>
      match firstNumber text with
      | Some n => if mentionsStreak text then Returned n else scanStreakTexts rest
      | None => scanStreakTexts rest
      end
    end
  end.

(** The loop over [possibleSelectors] of [extractStreakCountFromPage]; each
    round runs in its own [try], and an exception moves on to the next
    selector.  [inl n]: the function returned [n]; [inr e]: the loop ended
    with [streakElement] equal to [e]. *)
Fixpoint probeSelectors (doc : document) (selectors : list string)
    (streakElement : option element) : Z + option element :=
  match selectors with
  | [] => inr streakElement
  | selector :: rest =>
    match querySelectorAll doc selector with
    | Threw _ => probeSelectors doc rest streakElement
    | Elements [] => probeSelectors doc rest streakElement
    | Elements (first :: more) =>
      let streakElement' :=
        match streakElement with Some _ => streakElement | None => Some first end in
      match scanStreakTexts (first :: more) with
      | Returned n => inl n
      | Thrown | Finished => probeSelectors doc rest streakElement'
      end
    end
  end.

(** The loop of the "more aggressive approach": a short text that mentions a
    streak and holds a number.  The length of an ASCII text is its number of
    characters. *)
Fixpoint scanShortTexts (els : list element) : option Z :=
  match els with
  | [] => None
  | el :: rest =>
    match text_of el with
    | Some text =>
      if negb (String.eqb text "") && (Z.of_nat (String.length text) <? 50)
         && mentionsStreak text
      then match firstNumber text with
           | Some n => Some n
           | None => scanShortTexts rest
           end
      else scanShortTexts rest
    | None => scanShortTexts rest
    end
  end.

(** The loop of the "last resort approach": any number in the text. *)
Fixpoint scanAnyNumber (els : list element) : scan :=
  match els with
  | [] => Finished
  | el :: rest =>
    match text_of el with
    | None => Thrown
    | Some text =>
      match firstNumber text with
      | Some n => Returned n
      | None => scanAnyNumber rest
      end
    end
  end.

(** The number read off [streakElement] itself: its text, else its
    [aria-label], else (only when there is no [aria-label]) its [title]. *)
Definition readStreakElement (el : element) : scan :=
  match text_of el with
  | None => Thrown
  | Some text =>
    match firstNumber text with
    | Some n => Returned n
    | None =>
      match attribute (ariaLabel el) with
      | Some label => from_option Returned Finished (firstNumber label)
      | None =>
        match attribute (title el) with
        | Some t => from_option Returned Finished (firstNumber t)
        | None => Finished
        end
      end
    end
  end.

Definition lastResort (doc : document) : observed :=
  match querySelectorAll doc streakRelatedSelector with
  | Threw _ => ONull
  | Elements els =>
    match scanAnyNumber els with
    | Returned n => ONum (NInt n)
    | Thrown | Finished => ONull
    end
  end.

Definition aggressiveSearch (doc : document) : observed :=
  match querySelectorAll doc "*" with
  | Threw _ => ONull
  | Elements els =>
    match scanShortTexts els with
    | Some n => ONum (NInt n)
    | None => lastResort doc
    end
  end.

(** [extractStreakCountFromPage]: every assignment to [streakCount] is
    followed by [return], so both [if (!streakCount)] tests succeed when
    reached; an exception outside the selector loop returns [null]. *)
Definition extractStreakCountFromPage (doc : document) : observed :=
  match probeSelectors doc possibleSelectors
          (getElementById doc "reading-streak-header-button") with
  | inl n => ONum (NInt n)
  | inr None => aggressiveSearch doc
  | inr (Some el) =>
    match readStreakElement el with
    | Returned n => ONum (NInt n)
    | Thrown => ONull
    | Finished => aggressiveSearch doc
    end
  end.

(** [extractStreakCount(statusObj)] inside [clickFirstArticle]: the same
    probing, but a number read off [streakElement] is kept without returning,
    and the aggressive search runs when the count is still [null] or is 0.
    The whole body is one [try]: an exception leaves the count as it is. *)
Definition aggressiveUpdate (doc : document) (current : observed) : observed :=
  match querySelectorAll doc "*" with
  | Threw _ => current
  | Elements els =>
    match scanShortTexts els with
    | Some n => ONum (NInt n)
    | None => current
    end
  end.

Definition extractStreakCount (doc : document) : observed :=
  match probeSelectors doc possibleSelectors
          (getElementById doc "reading-streak-header-button") with
  | inl n => ONum (NInt n)
  | inr streakElement =>
    match from_option readStreakElement Finished streakElement with
    | Thrown => ONull
    | Returned n => if n =? 0 then aggressiveUpdate doc (ONum (NInt 0)) else ONum (NInt n)
    | Finished => aggressiveUpdate doc ONull
    end
  end.

Definition articleSelectors : list string :=
  ["article";
   "[data-testid=" +:+ quoted "post-card" +:+ "]";
   ".post-card";
   ".card";
   "a[href*=" +:+ quoted "/posts/" +:+ "]"].

(** The loop over [articleSelectors]: the first non-empty result, the last
    (empty) one when there is none; [inl message] when a query throws. *)
Fixpoint findArticles (doc : document) (selectors : list string)
  : string + list element :=
  match selectors with
  | [] => inr []
  | selector :: rest =>
    match querySelectorAll doc selector with
    | Threw message => inl message
    | Elements [] => findArticles doc rest
    | Elements (first :: more) => inr (first :: more)
    end
  end.

(** [link.href] of the link chosen for an article, when it is not empty. *)
Definition linkOf (article : element) : option string :=
  if String.eqb (tagName article) "A"
     && from_option (includes "/posts/") false (attribute (href article))
  then attribute (href article)
  else attribute (match postLinkHref article with
                  | Some h => Some h
                  | None => anyLinkHref article
                  end).

(** The first of the given articles that has a link. *)
Fixpoint firstLink (articles : list element) : option string :=
  match articles with
  | [] => None
  | article :: rest =>
    match linkOf article with
    | Some url => Some url
    | None => firstLink rest
    end
  end.

(** What the script leaves scheduled on the page when it returns. *)
Inductive page_action :=
| ClickLater (url : string)
| RetryLater
| NoAction.

(** [clickFirstArticle]: the status it returns (the click itself happens
    500 ms later, after the status has been returned) and what it scheduled. *)
Definition clickFirstArticle (doc : document) : status * page_action :=
  let count := extractStreakCount doc in
  if includes "/posts/" (location_href doc) then
    ({| articlesFound := true; linkFound := true; clicked := true;
        articleUrl := Some (location_href doc); error := None;
        streakCount := count |}, NoAction)
  else
    match findArticles doc articleSelectors with
    | inl message =>
      ({| articlesFound := false; linkFound := false; clicked := false;
          articleUrl := None; error := Some message; streakCount := count |},
       NoAction)
    | inr [] =>
      ({| articlesFound := false; linkFound := false; clicked := false;
          articleUrl := None; error := None; streakCount := count |},
       RetryLater)
    | inr articles =>
      match firstLink (take 5 articles) with
      | Some url =>
        ({| articlesFound := true; linkFound := true; clicked := false;
            articleUrl := Some url; error := None; streakCount := count |},
         ClickLater url)
      | None =>
        ({| articlesFound := true; linkFound := false; clicked := false;
            articleUrl := None; error := Some "No valid links found";
            streakCount := count |},
         NoAction)
      end
    end.

(** ** The popup

    What the popup shows, as the scripts set it; the popup's page is taken to
    hold the elements [streak-count] and [status-message]. *)

Record popup := {
  streakCountText : option value;
  syncIndicator : bool;
  syncTimeShown : option value;
  statusText : string;
  statusClasses : list string;
  visitButton : bool
}.

Definition blank : popup :=
  {| streakCountText := None; syncIndicator := false; syncTimeShown := None;
     statusText := ""; statusClasses := []; visitButton := false |}.

(** [a || b] *)
Definition js_or (a b : value) : value := if truthy a then a else b.

Definition showError (message : string) (p : popup) : popup :=
  {| streakCountText := streakCountText p; syncIndicator := syncIndicator p;
     syncTimeShown := syncTimeShown p;
     statusText := "Error: " +:+ message;
     statusClasses := statusClasses p ++ ["status-warning"];
     visitButton := false |}.

Definition updateStatusForIncompleteStreak (p : popup) : popup :=
  {| streakCountText := streakCountText p; syncIndicator := syncIndicator p;
     syncTimeShown := syncTimeShown p;
     statusText := "You need to visit daily.dev today!";
     statusClasses := statusClasses p ++ ["status-warning"];
     visitButton := true |}.

(** [src/js/popup.js] *)
Module Popup.

Definition updateStatusForCompletedStreak (p : popup) : popup :=
  {| streakCountText := streakCountText p; syncIndicator := syncIndicator p;
     syncTimeShown := syncTimeShown p;
     statusText := "You've maintained your streak today!";
     statusClasses := statusClasses p ++ ["status-success"];
     visitButton := false |}.

Definition updateStreakDisplay (c : clock) (streakData : gmap string value)
    (p : popup) : popup :=
  let p1 :=
    {| streakCountText := Some (js_or (field streakData "streak") (VNum (NInt 0)));
       syncIndicator := syncIndicator p; syncTimeShown := syncTimeShown p;
       statusText := statusText p; statusClasses := statusClasses p;
       visitButton := visitButton p |} in
  if strict_eq (field streakData "lastVisit") (VStr (today c))
  then updateStatusForCompletedStreak p1
  else updateStatusForIncompleteStreak p1.

Definition initializePopup (c : clock) : M popup :=
  result <~ storage_get ["streak"; "lastVisit"] ;;
  match result with
  | None => ret (showError "Could not access streak information" blank)
  | Some result => ret (updateStreakDisplay c result blank)
  end.

End Popup.

(** The later popup script ([unnamed/part_000]), which also shows whether
    the count was synced and when.  [hasStreakBox] tells whether the popup's
    page holds an element of class [streak]. *)
Module PopupSync.

Definition updateStatusForCompletedStreak (isSynced : value) (p : popup) : popup :=
  {| streakCountText := streakCountText p; syncIndicator := syncIndicator p;
     syncTimeShown := syncTimeShown p;
     statusText :=
       if truthy isSynced
       then "You've maintained your streak today! (Synced with daily.dev)"
       else "You've maintained your streak today!";
     statusClasses := statusClasses p ++ ["status-success"];
     visitButton := false |}.

Definition updateStreakDisplay (c : clock) (hasStreakBox : bool)
    (streakData : gmap string value) (p : popup) : popup :=
  let synced := truthy (field streakData "syncedWithDailyDev") in
  let p1 :=
    {| streakCountText := Some (js_or (field streakData "streak") (VNum (NInt 0)));
       syncIndicator := if synced then true else syncIndicator p;
       syncTimeShown :=
         if synced && truthy (field streakData "lastSyncTime") && hasStreakBox
         then Some (field streakData "lastSyncTime")
         else syncTimeShown p;
       statusText := statusText p; statusClasses := statusClasses p;
       visitButton := visitButton p |} in
  if strict_eq (field streakData "lastVisit") (VStr (today c))
  then updateStatusForCompletedStreak (field streakData "syncedWithDailyDev") p1
  else updateStatusForIncompleteStreak p1.

Definition initializePopup (c : clock) (hasStreakBox : bool) : M popup :=
  result <~ storage_get ["streak"; "lastVisit"; "syncedWithDailyDev"; "lastSyncTime"] ;;
  match result with
  | None => ret (showError "Could not access streak information" blank)
  | Some result => ret (updateStreakDisplay c hasStreakBox result blank)
  end.

End PopupSync.

(** ** Sample pages *)

(** Sunday 1 November 2026, 19:00 local time, one hour east of UTC. *)
Definition sunday_evening : clock :=
  {| now := 20758 * msPerDay + 18 * msPerHour; tzOffsetMs := msPerHour |}.

(** Tuesday 3 November 2026, 00:00:10 local time. *)
Definition tuesday_after_midnight : clock :=
  {| now := 20760 * msPerDay - msPerHour + 10000; tzOffsetMs := msPerHour |}.

(** The streak button of the page header, showing [text]. *)
Definition streak_button (text : string) : element :=
  {| textContent := text; innerText := Some text; ariaLabel := None; title := None;
     tagName := "BUTTON"; href := None; postLinkHref := None; anyLinkHref := None |}.

(** A page at [url] whose only element the scripts find is the streak
    button, found by its id. *)
Definition streak_page (text url : string) : document :=
  {| getElementById := fun id =>
       if String.eqb id "reading-streak-header-button"
       then Some (streak_button text) else None;
     querySelectorAll := fun _ => Elements [];
     location_href := url |}.

(** The store of [visited_sunday] after a manual sync, on Sunday evening, of
    a page whose streak button shows 9007199254740992 (2^53). *)
Definition huge_streak_sunday : world :=
  run (manualSyncResults sunday_evening 7 false
         (Some (extractStreakCountFromPage
                  (streak_page "9007199254740992 day streak" DAILY_DEV_URL))))
    visited_sunday.

(** An article page on which the scripts find no element at all. *)
Definition bare_article_page : document :=
  {| getElementById := fun _ => None;
     querySelectorAll := fun _ => Elements [];
     location_href := "https://app.daily.dev/posts/abc" |}.

(** Texts made of digits only. *)
Fixpoint all_digits (s : string) : bool :=
  match s with
  | EmptyString => true
  | String a rest => is_digit a && all_digits rest
  end.

(** [null] or a non-negative integer. *)
Definition natural (o : observed) : bool :=
  match o with
  | ONull => true
  | ONum (NInt n) => 0 <=? n
  | ONum _ => false
  end.

(** The events on which a handler may write to storage. *)
Definition may_write (ev : event) : bool :=
  match ev with
  | Installed | ClickScriptDone _ _ | ExtractScriptDone _ _ _ => true
  | _ => false
  end.

Definition is_add_listener (e : effect) : bool :=
  match e with
  | AddListener _ => true
  | _ => false
  end.

(** Two worlds that differ at most in the stored [streakMaintainedToday]. *)
Definition agree (w w' : world) : Prop :=
  lastError w' = lastError w /\
  accesses w' = accesses w /\
  forall k, k <> "streakMaintainedToday" -> storage w' !! k = storage w !! k.

(** A handler whose result and platform calls do not depend on the stored
    [streakMaintainedToday], and which lets it influence no other key. *)
Definition ignores_flag {A} (m : M A) : Prop :=
  forall w w', agree w w' ->
    (m w').1.1 = (m w).1.1 /\ (m w').2 = (m w).2 /\ agree (m w).1.2 (m w').1.2.

#[global] Arguments toDateString : simpl never.
#[global] Arguments pick : simpl never.
#[global] Arguments field : simpl never.
#[global] Arguments merge_items : simpl never.
#[global] Arguments notVisitedToday : simpl never.
#[global] Arguments newStreak : simpl never.

(** * Properties *)

(** ** The date strings *)

Example toDateString_epoch : toDateString 0 = "Thu Jan 01 1970".
Proof. vm_compute. reflexivity. Qed.

Example toDateString_sample : toDateString 20759 = "Mon Nov 02 2026".
Proof. vm_compute. reflexivity. Qed.

Example toDateString_leap : toDateString 19782 = "Thu Feb 29 2024".
Proof. vm_compute. reflexivity. Qed.

Lemma toDateString_nonempty day : String.eqb (toDateString day) "" = false.
Proof.
  unfold toDateString. destruct (civil day) as [[y m] d].
  unfold weekdayName. repeat case_decide; reflexivity.
Qed.

Lemma truthy_today c : truthy (VStr (today c)) = true.
Proof. unfold today. simpl. now rewrite toDateString_nonempty. Qed.

Lemma strict_eq_VStr v s : strict_eq v (VStr s) = true <-> v = VStr s.
Proof.
  destruct v as [| |b|[z| | |]|x]; simpl; split; try congruence.
  - intros H. apply String.eqb_eq in H. congruence.
  - intros H. inversion H. apply String.eqb_refl.
Qed.

(** ** Storage *)

Lemma pick_lookup keys (m : gmap string value) k :
  k ∈ keys -> pick keys m !! k = m !! k.
Proof.
  intros Hk. unfold pick. apply option_eq. intros v.
  rewrite map_lookup_filter_Some. cbn [fst]. tauto.
Qed.

Ltac in_keys := apply list_elem_of_In; cbn [In]; tauto.

Lemma field_lookup (m : gmap string value) k v : m !! k = Some v -> field m k = v.
Proof. intros H. unfold field. now rewrite H. Qed.

Lemma field_pick keys (m : gmap string value) k :
  k ∈ keys -> field (pick keys m) k = field m k.
Proof. intros Hk. unfold field. now rewrite pick_lookup. Qed.

Lemma notVisitedToday_pick c keys (m : gmap string value) :
  "lastVisit" ∈ keys -> notVisitedToday c (pick keys m) = notVisitedToday c m.
Proof. intros Hk. unfold notVisitedToday. now rewrite field_pick. Qed.

Lemma notVisitedToday_false c (m : gmap string value) :
  m !! "lastVisit" = Some (VStr (today c)) -> notVisitedToday c m = false.
Proof.
  intros H. unfold notVisitedToday, field. rewrite H.
  change (default VUndefined (Some (VStr (today c)))) with (VStr (today c)).
  rewrite truthy_today.
  now rewrite (proj2 (strict_eq_VStr _ _) eq_refl).
Qed.

Lemma notVisitedToday_true c (m : gmap string value) :
  m !! "lastVisit" <> Some (VStr (today c)) -> notVisitedToday c m = true.
Proof.
  intros H. unfold notVisitedToday, field.
  destruct (m !! "lastVisit") as [v|] eqn:E; [|reflexivity].
  change (default VUndefined (Some v)) with v.
  destruct (strict_eq v (VStr (today c))) eqn:Eq.
  - apply strict_eq_VStr in Eq. congruence.
  - apply orb_true_r.
Qed.

(** ** The two paths, case by case *)

Lemma updateStreak_eq c w :
  updateStreak c w =
  if lastError w (accesses w) then
    (tt, count_access w, [StorageGet ["streak"; "lastVisit"] false])
  else if notVisitedToday c (storage w) then
    let items := internalItems c (newStreak c (pick ["streak"; "lastVisit"] (storage w))) in
    if lastError w (S (accesses w)) then
      (tt, count_access (count_access w),
       [StorageGet ["streak"; "lastVisit"] true; StorageSet items false])
    else
      (tt, count_access (store (merge_items items (storage w)) (count_access w)),
       [StorageGet ["streak"; "lastVisit"] true; StorageSet items true;
        NotificationsCreate "Daily.dev Streak Maintained!" 0])
  else (tt, count_access w, [StorageGet ["streak"; "lastVisit"] true]).
Proof.
  unfold updateStreak, bind, storage_get.
  destruct (lastError w (accesses w)) eqn:E1; [reflexivity|].
  rewrite notVisitedToday_pick by set_solver.
  destruct (notVisitedToday c (storage w)); [|reflexivity].
  unfold storage_set. cbn [count_access accesses lastError storage negb].
  destruct (lastError w (S (accesses w))); reflexivity.
Qed.

Lemma updateStreakWithCount_eq c v w :
  updateStreakWithCount c v w =
  if lastError w (accesses w) then
    (tt, count_access w, [StorageGet ["lastVisit"] false])
  else if lastError w (S (accesses w)) then
    (tt, count_access (count_access w),
     [StorageGet ["lastVisit"] true; StorageSet (syncedItems c v) false])
  else
    (tt, count_access (store (merge_items (syncedItems c v) (storage w)) (count_access w)),
     [StorageGet ["lastVisit"] true; StorageSet (syncedItems c v) true] ++
     if notVisitedToday c (storage w)
     then [NotificationsCreate "Daily.dev Streak Maintained!" 0]
     else []).
Proof.
  unfold updateStreakWithCount, bind, storage_get.
  destruct (lastError w (accesses w)) eqn:E1; [reflexivity|].
  rewrite notVisitedToday_pick by set_solver.
  unfold storage_set. cbn [count_access accesses lastError storage negb].
  destruct (lastError w (S (accesses w))); [reflexivity|].
  destruct (notVisitedToday c (storage w)); reflexivity.
Qed.

(** Reading a key of the storage after [set(items)] with items written out. *)
Ltac lookup_items :=
  unfold merge_items, syncedItems, internalItems, syncItems, initialItems,
    maintainedItems;
  cbn [foldl fst snd];
  repeat (rewrite lookup_insert_eq || rewrite lookup_insert_ne by done).

Lemma syncedItems_streak c v (s : gmap string value) :
  merge_items (syncedItems c v) s !! "streak" = Some v.
Proof. now lookup_items. Qed.

Lemma syncedItems_lastVisit c v (s : gmap string value) :
  merge_items (syncedItems c v) s !! "lastVisit" = Some (VStr (today c)).
Proof. now lookup_items. Qed.

Lemma syncedItems_maintained c v (s : gmap string value) :
  merge_items (syncedItems c v) s !! "streakMaintainedToday" = Some (VBool true).
Proof. now lookup_items. Qed.

Lemma syncedItems_synced c v (s : gmap string value) :
  merge_items (syncedItems c v) s !! "syncedWithDailyDev" = Some (VBool true).
Proof. now lookup_items. Qed.

Lemma syncedItems_lastSyncTime c v (s : gmap string value) :
  merge_items (syncedItems c v) s !! "lastSyncTime" = Some (VNum (NInt (now c))).
Proof. now lookup_items. Qed.

Lemma internalItems_streak c v (s : gmap string value) :
  merge_items (internalItems c v) s !! "streak" = Some v.
Proof. now lookup_items. Qed.

Lemma internalItems_lastVisit c v (s : gmap string value) :
  merge_items (internalItems c v) s !! "lastVisit" = Some (VStr (today c)).
Proof. now lookup_items. Qed.

Lemma internalItems_maintained c v (s : gmap string value) :
  merge_items (internalItems c v) s !! "streakMaintainedToday" = Some (VBool true).
Proof. now lookup_items. Qed.

Lemma internalItems_synced c v (s : gmap string value) :
  merge_items (internalItems c v) s !! "syncedWithDailyDev" = Some (VBool false).
Proof. now lookup_items. Qed.

Lemma internalItems_lastSyncTime c v (s : gmap string value) :
  merge_items (internalItems c v) s !! "lastSyncTime" = s !! "lastSyncTime".
Proof. now lookup_items. Qed.

Lemma syncItems_streak c v (s : gmap string value) :
  merge_items (syncItems c v) s !! "streak" = Some v.
Proof. now lookup_items. Qed.

Lemma syncItems_synced c v (s : gmap string value) :
  merge_items (syncItems c v) s !! "syncedWithDailyDev" = Some (VBool true).
Proof. now lookup_items. Qed.

Lemma syncItems_lastSyncTime c v (s : gmap string value) :
  merge_items (syncItems c v) s !! "lastSyncTime" = Some (VNum (NInt (now c))).
Proof. now lookup_items. Qed.

Lemma syncItems_lastVisit c v (s : gmap string value) :
  merge_items (syncItems c v) s !! "lastVisit" = s !! "lastVisit".
Proof. now lookup_items. Qed.

Lemma syncItems_maintained c v (s : gmap string value) :
  merge_items (syncItems c v) s !! "streakMaintainedToday" = s !! "streakMaintainedToday".
Proof. now lookup_items. Qed.

(** ** Reconciliation on a day already maintained *)

Example today_monday_evening : today monday_evening = "Mon Nov 02 2026".
Proof. vm_compute. reflexivity. Qed.

(** C1, as stated, fails: with [lastVisit] equal to today and a stored streak
    of 10 kept by internal tracking, [updateStreakWithCount(3)] stores 3 and
    marks the streak as synced. *)
Lemma updateStreakWithCount_same_day_overwrites :
  storage maintained_monday !! "lastVisit" = Some (VStr (today monday_evening)) /\
  storage maintained_monday !! "streak" = Some (VNum (NInt 10)) /\
  storage maintained_monday !! "syncedWithDailyDev" = Some (VBool false) /\
  let w' := run (updateStreakWithCount monday_evening (VNum (NInt 3))) maintained_monday in
  storage w' !! "streak" = Some (VNum (NInt 3)) /\
  storage w' !! "syncedWithDailyDev" = Some (VBool true).
Proof. vm_compute. repeat split. Qed.

(** C1 (amended): when [lastVisit] equals today, [updateStreak] stores nothing
    and only reads; [updateStreakWithCount(v)] leaves [lastVisit] at today and
    sends no notification, but, when its read and write succeed, it stores [v]
    as the streak and sets [syncedWithDailyDev]. *)
Theorem same_day_reconciliation c v w :
  storage w !! "lastVisit" = Some (VStr (today c)) ->
  storage (run (updateStreak c) w) = storage w /\
  effects (updateStreak c) w =
    [StorageGet ["streak"; "lastVisit"] (negb (lastError w (accesses w)))] /\
  storage (run (updateStreakWithCount c v) w) !! "lastVisit" = Some (VStr (today c)) /\
  existsb is_notification (effects (updateStreakWithCount c v) w) = false /\
  (lastError w (accesses w) = false -> lastError w (S (accesses w)) = false ->
   storage (run (updateStreakWithCount c v) w) !! "streak" = Some v /\
   storage (run (updateStreakWithCount c v) w) !! "syncedWithDailyDev" = Some (VBool true)).
Proof.
  intros Hvisit. pose proof (notVisitedToday_false _ _ Hvisit) as Hnot.
  unfold run, effects. rewrite updateStreak_eq, updateStreakWithCount_eq, Hnot.
  destruct (lastError w (accesses w)), (lastError w (S (accesses w)));
    cbn [fst snd count_access store storage negb app];
    rewrite ?syncedItems_lastVisit, ?syncedItems_streak, ?syncedItems_synced;
    repeat split; done.
Qed.

Lemma same_day_reconciliation_witness :
  storage maintained_monday !! "lastVisit" = Some (VStr (today monday_evening)) /\
  storage (run (updateStreak monday_evening) maintained_monday)
    = storage maintained_monday /\
  storage (run (updateStreakWithCount monday_evening (VNum (NInt 3))) maintained_monday)
    !! "lastVisit" = Some (VStr (today monday_evening)).
Proof.
  assert (H : storage maintained_monday !! "lastVisit"
              = Some (VStr (today monday_evening))) by (vm_compute; reflexivity).
  split; [exact H|].
  pose proof (same_day_reconciliation monday_evening (VNum (NInt 3)) maintained_monday H)
    as (H1 & _ & H3 & _).
  split; [exact H1 | exact H3].
Defined.

(** ** The external-sync path *)

(** The two forced syncs write the count, [syncedWithDailyDev] and
    [lastSyncTime] only: on a day not yet maintained they leave [lastVisit]
    and [streakMaintainedToday] as stored. *)
Example forced_sync_leaves_lastVisit :
  let w' := run (forceSyncResults monday_evening 7 "Mon Nov 02 2026" false false
                   (Some (ONum (NInt 42)))) visited_sunday in
  storage w' !! "streak" = Some (VNum (NInt 42)) /\
  storage w' !! "syncedWithDailyDev" = Some (VBool true) /\
  storage w' !! "lastSyncTime" = Some (VNum (NInt (now monday_evening))) /\
  storage w' !! "lastVisit" = Some (VStr "Sun Nov 01 2026").
Proof. vm_compute. repeat split. Qed.

(** ** The internal increment path *)

Example to_double_rounds :
  to_double (2 ^ 53) = NInt (2 ^ 53) /\
  to_double (2 ^ 53 + 1) = NInt (2 ^ 53) /\
  to_double (2 ^ 53 + 2) = NInt (2 ^ 53 + 2) /\
  to_double (2 ^ 53 + 3) = NInt (2 ^ 53 + 4) /\
  to_double (2 ^ 54 + 2) = NInt (2 ^ 54) /\
  to_double (2 ^ 54 + 6) = NInt (2 ^ 54 + 8) /\
  to_double (2 ^ 60 + 129) = NInt 1152921504606847232 /\
  to_double (- (2 ^ 53 + 3)) = NInt (- (2 ^ 53 + 4)) /\
  to_double (10 ^ 22 + 12345) = NInt (10 ^ 22) /\
  to_double (2 ^ 1024 - 2 ^ 970 - 1) = NInt (2 ^ 1024 - 2 ^ 971) /\
  to_double (2 ^ 1024 - 2 ^ 970) = PosInf.
Proof. vm_compute. repeat split. Qed.

Lemma to_double_exact z :
  - 9007199254740992 <= z <= 9007199254740992 -> to_double z = NInt z.
Proof.
  intros Hz. unfold to_double.
  change (2 ^ 53) with 9007199254740992.
  destruct (Z.ltb_spec (Z.abs z) 9007199254740992) as [Hlt | Hge]; [reflexivity|].
  assert (Hcases : z = 9007199254740992 \/ z = - 9007199254740992) by lia.
  destruct Hcases as [-> | ->]; vm_compute; reflexivity.
Qed.

(** C3, as stated, fails: a stored streak of 9007199254740992 (2^53), synced
    on Sunday from a page showing that number, is not incremented by the
    internal path on Monday: the sum of the two doubles is 2^53 again. *)
Lemma increment_rounds_from_2_53 :
  storage huge_streak_sunday !! "lastVisit"
    = Some (VStr (yesterdayString monday_evening)) /\
  storage huge_streak_sunday !! "streak" = Some (VNum (NInt 9007199254740992)) /\
  storage (run (updateStreak monday_evening) huge_streak_sunday) !! "streak"
    = Some (VNum (NInt 9007199254740992)) /\
  9007199254740992 <> 9007199254740992 + 1.
Proof. vm_compute. repeat split. discriminate. Qed.

(** C3 (amended): when [lastVisit] is not today and the read and the write
    succeed, [updateStreak] sets [lastVisit] to today, [streakMaintainedToday]
    to true and [syncedWithDailyDev] to false; when [lastVisit] was yesterday
    the streak becomes the stored number plus one as JavaScript adds them,
    which is the stored number plus one for every stored number from -2^53 to
    2^53 - 1 and the nearest double beyond; for any other [lastVisit] (null,
    or the date of an older day) it becomes 1. *)
Theorem internal_increment c w :
  storage w !! "lastVisit" <> Some (VStr (today c)) ->
  lastError w (accesses w) = false ->
  lastError w (S (accesses w)) = false ->
  let w' := run (updateStreak c) w in
  storage w' !! "lastVisit" = Some (VStr (today c)) /\
  storage w' !! "streakMaintainedToday" = Some (VBool true) /\
  storage w' !! "syncedWithDailyDev" = Some (VBool false) /\
  (forall n,
     storage w !! "lastVisit" = Some (VStr (yesterdayString c)) ->
     storage w !! "streak" = Some (VNum (NInt n)) ->
     storage w' !! "streak" = Some (VNum (to_double (n + 1))) /\
     (- 9007199254740992 <= n < 9007199254740992 ->
      storage w' !! "streak" = Some (VNum (NInt (n + 1))))) /\
  (storage w !! "lastVisit" <> Some (VStr (yesterdayString c)) ->
   storage w' !! "streak" = Some (VNum (NInt 1))).
Proof.
  intros Hvisit E1 E2. pose proof (notVisitedToday_true _ _ Hvisit) as Hnot.
  unfold run. rewrite updateStreak_eq, E1, Hnot. cbn zeta. rewrite E2.
  cbn [fst snd count_access store storage].
  rewrite internalItems_streak, internalItems_lastVisit, internalItems_maintained,
    internalItems_synced.
  assert (Hnew : forall n,
    storage w !! "lastVisit" = Some (VStr (yesterdayString c)) ->
    storage w !! "streak" = Some (VNum (NInt n)) ->
    newStreak c (pick ["streak"; "lastVisit"] (storage w)) = VNum (to_double (n + 1))).
  { intros n Hy Hs. unfold newStreak.
    rewrite !field_pick by in_keys.
    rewrite (field_lookup _ _ _ Hy), (field_lookup _ _ _ Hs).
    now rewrite (proj2 (strict_eq_VStr _ _) eq_refl). }
  split; [reflexivity|]. split; [reflexivity|]. split; [reflexivity|]. split.
  - intros n Hy Hs. rewrite (Hnew n Hy Hs). split; [reflexivity|].
    intros Hn. now rewrite to_double_exact by lia.
  - intros Hy. unfold newStreak. rewrite field_pick by set_solver.
    destruct (strict_eq (field (storage w) "lastVisit") (VStr (yesterdayString c))) eqn:Eq;
      [|reflexivity].
    apply strict_eq_VStr in Eq. unfold field in Eq.
    destruct (storage w !! "lastVisit") as [x|]; [|discriminate].
    change (default VUndefined (Some x)) with x in Eq. congruence.
Qed.

Lemma internal_increment_witness :
  let w' := run (updateStreak monday_evening) visited_sunday in
  storage visited_sunday !! "lastVisit" = Some (VStr (yesterdayString monday_evening)) /\
  storage visited_sunday !! "streak" = Some (VNum (NInt 5)) /\
  storage w' !! "lastVisit" = Some (VStr (today monday_evening)) /\
  storage w' !! "streakMaintainedToday" = Some (VBool true) /\
  storage w' !! "syncedWithDailyDev" = Some (VBool false) /\
  storage w' !! "streak" = Some (VNum (NInt (5 + 1))).
Proof.
  assert (Hy : storage visited_sunday !! "lastVisit"
               = Some (VStr (yesterdayString monday_evening)))
    by (vm_compute; reflexivity).
  assert (Hs : storage visited_sunday !! "streak" = Some (VNum (NInt 5)))
    by (vm_compute; reflexivity).
  assert (Hn : storage visited_sunday !! "lastVisit"
               <> Some (VStr (today monday_evening)))
    by (vm_compute; discriminate).
  pose proof (internal_increment monday_evening visited_sunday Hn eq_refl eq_refl)
    as (H1 & H2 & H3 & H4 & _).
  exact (conj Hy (conj Hs (conj H1 (conj H2 (conj H3
           (proj2 (H4 5 Hy Hs) ltac:(lia))))))).
Defined.

(** Scenario C of the specification: a last visit three days ago resets the
    streak to 1. *)
Example broken_streak_restarts :
  storage (run (updateStreak monday_evening) visited_friday) !! "streak"
  = Some (VNum (NInt 1)).
Proof. vm_compute. reflexivity. Qed.

(** Scenario A: a fresh install holds streak 0, no last visit, not maintained. *)
Example fresh_install_state :
  storage fresh_install !! "streak" = Some (VNum (NInt 0)) /\
  storage fresh_install !! "lastVisit" = Some VNull /\
  storage fresh_install !! "streakMaintainedToday" = Some (VBool false).
Proof. vm_compute. repeat split. Qed.

(** ** The schedule *)

Lemma startOfDay_le_now c : startOfDay c (localDay c) <= now c < startOfDay c (localDay c) + msPerDay.
Proof.
  unfold startOfDay, localDay, msPerDay.
  pose proof (Z.div_mod (now c + tzOffsetMs c) 86400000 ltac:(lia)) as Hdm.
  pose proof (Z.mod_pos_bound (now c + tzOffsetMs c) 86400000 ltac:(lia)) as Hb.
  lia.
Qed.

(** C7, as stated, fails: at 19:00:00.000 sharp the time computed for the
    19:00 reminder is the current instant, not a later one, although 19:00 is
    no longer in the future. *)
Lemma getNextReminderTime_not_strictly_later :
  getNextReminderTime monday_evening FIRST_REMINDER_HOUR FIRST_REMINDER_MINUTE
    = now monday_evening /\
  ~ now monday_evening
    < getNextReminderTime monday_evening FIRST_REMINDER_HOUR FIRST_REMINDER_MINUTE.
Proof. vm_compute. split; [reflexivity | discriminate]. Qed.

(** An hour outside 0..23 carries over into later days, and the gap is then
    not bounded by a day. *)
Example getNextReminderTime_hour_overflow :
  getNextReminderTime monday_evening 48 0 - now monday_evening = 29 * msPerHour.
Proof. vm_compute. reflexivity. Qed.

Lemma localDay_at_instant c t day :
  startOfDay c day <= t < startOfDay c day + msPerDay ->
  localDay (at_instant t c) = day.
Proof.
  unfold localDay, startOfDay, at_instant, msPerDay. cbn [now tzOffsetMs].
  intros H. symmetry.
  apply Z.div_unique with (r := t + tzOffsetMs c - day * 86400000); lia.
Qed.

(** C7 (amended): in a time zone with a fixed UTC offset, for an hour in
    0..23 and a minute in 0..59, [getNextReminderTime] returns today at
    hour:minute when that instant is not before now, and tomorrow at
    hour:minute otherwise; the result is never before now (it equals now when
    now is hour:minute sharp) and lies less than 24 hours after it, and a
    call made at any instant from now up to the result returns that same
    result. *)
Theorem next_reminder_time c hour minute :
  0 <= hour < 24 ->
  0 <= minute < 60 ->
  let r := getNextReminderTime c hour minute in
  let timeOfDay := hour * msPerHour + minute * msPerMinute in
  (now c <= startOfDay c (localDay c) + timeOfDay ->
   r = startOfDay c (localDay c) + timeOfDay) /\
  (startOfDay c (localDay c) + timeOfDay < now c ->
   r = startOfDay c (localDay c + 1) + timeOfDay) /\
  0 <= timeOfDay < msPerDay /\
  now c <= r /\
  r - now c < msPerDay /\
  (forall t, now c <= t <= r -> getNextReminderTime (at_instant t c) hour minute = r).
Proof.
  intros Hh Hm r timeOfDay. subst r timeOfDay.
  pose proof (startOfDay_le_now c) as Hday.
  assert (Hnext : startOfDay c (localDay c + 1) = startOfDay c (localDay c) + msPerDay)
    by (unfold startOfDay; lia).
  assert (Hstart : forall t day, startOfDay (at_instant t c) day = startOfDay c day)
    by reflexivity.
  unfold getNextReminderTime, setHours.
  rewrite Hnext.
  set (S0 := startOfDay c (localDay c)) in *.
  destruct (Z.ltb_spec (S0 + hour * msPerHour + minute * msPerMinute) (now c)) as [Hlt | Hle].
  - split; [unfold msPerDay, msPerHour, msPerMinute in *; lia|].
    split; [unfold msPerDay, msPerHour, msPerMinute in *; lia|].
    split; [unfold msPerDay, msPerHour, msPerMinute in *; lia|].
    split; [unfold msPerDay, msPerHour, msPerMinute in *; lia|].
    split; [unfold msPerDay, msPerHour, msPerMinute in *; lia|].
    intros t Ht. cbn [now at_instant]. rewrite Hstart.
    destruct (Z.lt_ge_cases t (S0 + msPerDay)) as [Hsame | Hnextday].
    + rewrite (localDay_at_instant c t (localDay c)) by (fold S0; lia). fold S0.
      destruct (Z.ltb_spec (S0 + hour * msPerHour + minute * msPerMinute) t); lia.
    + rewrite (localDay_at_instant c t (localDay c + 1))
        by (rewrite Hnext; unfold msPerDay, msPerHour, msPerMinute in *; lia).
      rewrite Hnext.
      destruct (Z.ltb_spec (S0 + msPerDay + hour * msPerHour + minute * msPerMinute) t);
        lia.
  - split; [unfold msPerDay, msPerHour, msPerMinute in *; lia|].
    split; [unfold msPerDay, msPerHour, msPerMinute in *; lia|].
    split; [unfold msPerDay, msPerHour, msPerMinute in *; lia|].
    split; [unfold msPerDay, msPerHour, msPerMinute in *; lia|].
    split; [unfold msPerDay, msPerHour, msPerMinute in *; lia|].
    intros t Ht. cbn [now at_instant]. rewrite Hstart.
    rewrite (localDay_at_instant c t (localDay c))
      by (fold S0; unfold msPerDay, msPerHour, msPerMinute in *; lia).
    fold S0.
    destruct (Z.ltb_spec (S0 + hour * msPerHour + minute * msPerMinute) t); lia.
Qed.

Lemma next_reminder_time_witness :
  let c := {| now := 20759 * msPerDay + 20 * msPerHour; tzOffsetMs := msPerHour |} in
  let r := getNextReminderTime c FIRST_REMINDER_HOUR FIRST_REMINDER_MINUTE in
  r = startOfDay c (localDay c + 1) + 19 * msPerHour /\ now c <= r /\ r - now c < msPerDay /\
  getNextReminderTime (at_instant (now c + 5 * msPerHour) c)
    FIRST_REMINDER_HOUR FIRST_REMINDER_MINUTE = r.
Proof.
  intros c r.
  pose proof (next_reminder_time c FIRST_REMINDER_HOUR FIRST_REMINDER_MINUTE
                ltac:(unfold FIRST_REMINDER_HOUR; lia)
                ltac:(unfold FIRST_REMINDER_MINUTE; lia))
    as (_ & H2 & _ & H4 & H5 & H6).
  split; [|split; [exact H4 | split; [exact H5|]]].
  - apply H2. vm_compute. reflexivity.
  - apply H6. vm_compute. split; discriminate.
Defined.

(** ** Reminders *)

Lemma checkStreakAndNotify_eq c isUrgent w :
  checkStreakAndNotify c isUrgent w =
  (tt, count_access w,
   StorageGet ["streak"; "lastVisit"] (negb (lastError w (accesses w))) ::
   if negb (lastError w (accesses w)) && notVisitedToday c (storage w)
   then [NotificationsCreate
           (if isUrgent then "URGENT: Daily.dev Streak About to Expire!"
            else "Daily.dev Streak Reminder")
           (if isUrgent then 2 else 1)]
   else []).
Proof.
  unfold checkStreakAndNotify, bind, storage_get.
  destruct (lastError w (accesses w)); [reflexivity|].
  rewrite notVisitedToday_pick by set_solver.
  destruct (notVisitedToday c (storage w)); reflexivity.
Qed.

Lemma onAlarm_reminder_eq c name w :
  name = "firstStreakReminder" \/ name = "secondStreakReminder" ->
  onAlarm c name w =
  if lastError w (accesses w) then
    (tt, count_access w, [StorageGet ["lastVisit"] false])
  else if notVisitedToday c (storage w) then
    (tt, count_access (count_access w),
     StorageGet ["lastVisit"] true ::
     snd (checkStreakAndNotify c (String.eqb name "secondStreakReminder") (count_access w)))
  else (tt, count_access w, [StorageGet ["lastVisit"] true]).
Proof.
  intros Hname. unfold onAlarm, bind.
  destruct Hname as [-> | ->]; cbn [String.eqb Ascii.eqb Bool.eqb orb];
    unfold storage_get;
    (destruct (lastError w (accesses w)) eqn:E1; [reflexivity|]);
    rewrite notVisitedToday_pick by set_solver;
    (destruct (notVisitedToday c (storage w)); [|reflexivity]);
    rewrite checkStreakAndNotify_eq; reflexivity.
Qed.

(** C8: a firing reminder alarm changes nothing in storage; every call it
    makes is a storage read or a notification; it notifies only when
    [lastVisit] is not today, and makes no notification call when it is. *)
Theorem reminder_is_read_only c name w :
  name = "firstStreakReminder" \/ name = "secondStreakReminder" ->
  storage (run (onAlarm c name) w) = storage w /\
  forallb read_or_notification (effects (onAlarm c name) w) = true /\
  (existsb is_notification (effects (onAlarm c name) w) = true ->
   notVisitedToday c (storage w) = true) /\
  (storage w !! "lastVisit" = Some (VStr (today c)) ->
   existsb is_notification (effects (onAlarm c name) w) = false).
Proof.
  intros Hname.
  assert (Hgoal :
    storage (run (onAlarm c name) w) = storage w /\
    forallb read_or_notification (effects (onAlarm c name) w) = true /\
    (existsb is_notification (effects (onAlarm c name) w) = true ->
     notVisitedToday c (storage w) = true)).
  { unfold run, effects. rewrite (onAlarm_reminder_eq c name w Hname).
    destruct (lastError w (accesses w)) eqn:E1;
      [repeat split; discriminate|].
    destruct (notVisitedToday c (storage w)) eqn:Hn;
      [|repeat split; discriminate].
    rewrite checkStreakAndNotify_eq.
    cbn [count_access lastError accesses storage fst snd].
    rewrite Hn.
    destruct (lastError w (S (accesses w))); repeat split. }
  destruct Hgoal as (H1 & H2 & H3). repeat split; try assumption.
  intros Hvisit. apply notVisitedToday_false in Hvisit.
  destruct (existsb is_notification (effects (onAlarm c name) w)) eqn:E; [|reflexivity].
  rewrite (H3 eq_refl) in Hvisit. discriminate.
Qed.

Lemma reminder_is_read_only_witness :
  storage (run (onAlarm monday_evening "firstStreakReminder") maintained_monday)
    = storage maintained_monday /\
  existsb is_notification
    (effects (onAlarm monday_evening "firstStreakReminder") maintained_monday) = false.
Proof.
  pose proof (reminder_is_read_only monday_evening "firstStreakReminder"
                maintained_monday (or_introl eq_refl)) as (H1 & _ & _ & H4).
  split; [exact H1|]. apply H4. vm_compute. reflexivity.
Defined.

(** On a day not yet maintained the first reminder does notify. *)
Example reminder_notifies :
  effects (onAlarm monday_evening "firstStreakReminder") visited_sunday =
  [StorageGet ["lastVisit"] true; StorageGet ["streak"; "lastVisit"] true;
   NotificationsCreate "Daily.dev Streak Reminder" 1].
Proof. vm_compute. reflexivity. Qed.

(** ** Storage failures *)

(** C9: when the storage access a handler starts with fails, the handler
    leaves the stored state as it was, makes no further storage access (no
    retry, no further write) and takes no dependent action: it runs no
    script, creates no notification and opens no tab.  (The install handler
    still schedules its alarms, which it does outside the callback of its
    write.) *)
Theorem storage_failure_aborts c tabId streakCount isUrgent name m w :
  In m (storage_first_handlers c tabId streakCount isUrgent name) ->
  lastError w (accesses w) = true ->
  storage (run m w) = storage w /\
  accesses (run m w) = S (accesses w) /\
  length (List.filter is_storage_access (effects m w)) = 1%nat /\
  existsb dependent_action (effects m w) = false.
Proof.
  intros Hin Herr. unfold storage_first_handlers in Hin. cbn [In] in Hin.
  unfold run, effects.
  destruct Hin as [<-|[<-|[<-|[<-|[<-|[<-|[<-|[<-|[]]]]]]]]].
  - unfold handleDailyDevPageLoad, bind, storage_get. rewrite Herr. repeat split.
  - rewrite updateStreakWithCount_eq, Herr. repeat split.
  - rewrite updateStreak_eq, Herr. repeat split.
  - unfold forceSyncStreakFromDailyDev, bind, storage_get. rewrite Herr. repeat split.
  - unfold onInstalled, setupAlarms, bind, storage_set, emit. rewrite Herr. repeat split.
  - rewrite checkStreakAndNotify_eq, Herr. repeat split.
  - unfold executeStreakFailsafe, bind, storage_get. rewrite Herr. repeat split.
  - unfold onAlarm. destruct (String.eqb name "forceStreakSync").
    + unfold forceSyncStreakFromDailyDev, bind, storage_get. rewrite Herr. repeat split.
    + unfold bind, storage_get. rewrite Herr. repeat split.
Qed.

Lemma storage_failure_aborts_witness :
  let m := updateStreak monday_evening in
  let w := failing visited_sunday in
  storage (run m w) = storage w /\
  accesses (run m w) = S (accesses w) /\
  length (List.filter is_storage_access (effects m w)) = 1%nat /\
  existsb dependent_action (effects m w) = false.
Proof.
  apply (storage_failure_aborts monday_evening 1 VNull false "firstStreakReminder").
  - right. right. left. reflexivity.
  - reflexivity.
Defined.

(** A failing write, after a read that succeeded, stores nothing either and is
    followed by no notification. *)
Lemma write_failure_aborts c v w :
  lastError w (accesses w) = false ->
  lastError w (S (accesses w)) = true ->
  storage (run (updateStreak c) w) = storage w /\
  existsb dependent_action (effects (updateStreak c) w) = false /\
  storage (run (updateStreakWithCount c v) w) = storage w /\
  existsb dependent_action (effects (updateStreakWithCount c v) w) = false.
Proof.
  intros E1 E2. unfold run, effects.
  rewrite updateStreak_eq, updateStreakWithCount_eq, E1, E2.
  destruct (notVisitedToday c (storage w)); repeat split.
Qed.

(** ** The result of the click script *)

Lemma clickResults_article c st w :
  clicked st || onArticlePage st = true ->
  clickResults c false (Some st) w =
  if negb (is_null (streakCount st)) && negb (isNaN (streakCount st))
  then updateStreakWithCount c (value_of_observed (streakCount st)) w
  else updateStreak c w.
Proof.
  intros H. unfold clickResults. rewrite H.
  now destruct (negb (is_null (streakCount st)) && negb (isNaN (streakCount st))).
Qed.

(** ** An extracted count of 0 *)

(** C10: both forced syncs treat an extracted count of 0 as a failed
    extraction: nothing is stored, the manual sync answers with a failure and
    the alarm-triggered one closes its tab and stops; the page-load path, with
    the article clicked or already open, stores an observed 0. *)
Theorem zero_count_forced_sync c tab today0 alreadyMaintained st w :
  clicked st || onArticlePage st = true ->
  streakCount st = ONum (NInt 0) ->
  lastError w (accesses w) = false ->
  lastError w (S (accesses w)) = false ->
  manualSyncResults c tab false (Some (ONum (NInt 0))) w
    = (tt, w, [TabsRemove tab;
               SendResponse (Failure "Could not extract streak count")]) /\
  forceSyncResults c tab today0 alreadyMaintained false (Some (ONum (NInt 0))) w
    = (tt, w, [TabsRemove tab]) /\
  storage (run (clickResults c false (Some st)) w) !! "streak" = Some (VNum (NInt 0)).
Proof.
  intros Hst Hcount E1 E2. repeat split.
  unfold run. rewrite clickResults_article, Hcount by assumption.
  cbn [is_null isNaN negb andb value_of_observed].
  rewrite updateStreakWithCount_eq, E1, E2.
  cbn [fst snd count_access store storage]. apply syncedItems_streak.
Qed.

Lemma zero_count_forced_sync_witness :
  manualSyncResults monday_evening 7 false (Some (ONum (NInt 0))) visited_sunday
    = (tt, visited_sunday,
       [TabsRemove 7; SendResponse (Failure "Could not extract streak count")]) /\
  forceSyncResults monday_evening 7 "Mon Nov 02 2026" false false
      (Some (ONum (NInt 0))) visited_sunday
    = (tt, visited_sunday, [TabsRemove 7]) /\
  storage (run (clickResults monday_evening false (Some (on_article (ONum (NInt 0)))))
             visited_sunday) !! "streak" = Some (VNum (NInt 0)).
Proof.
  apply (zero_count_forced_sync monday_evening 7 "Mon Nov 02 2026" false
           (on_article (ONum (NInt 0))) visited_sunday); reflexivity.
Defined.

(** A count other than 0 is stored by both forced syncs. *)
Example forced_sync_stores_count :
  storage (run (manualSyncResults monday_evening 7 false (Some (ONum (NInt 42))))
             visited_sunday) !! "streak" = Some (VNum (NInt 42)) /\
  storage (run (forceSyncResults monday_evening 7 "Mon Nov 02 2026" false false
                  (Some (ONum (NInt 42)))) visited_sunday) !! "streak"
  = Some (VNum (NInt 42)).
Proof. vm_compute. split; reflexivity. Qed.

(** ** What each writing handler can leave in storage *)

Lemma updateStreak_storage c w :
  storage (run (updateStreak c) w) = storage w \/
  storage (run (updateStreak c) w)
  = merge_items (internalItems c (newStreak c (pick ["streak"; "lastVisit"] (storage w))))
      (storage w).
Proof.
  unfold run. rewrite updateStreak_eq.
  destruct (lastError w (accesses w)), (notVisitedToday c (storage w)),
    (lastError w (S (accesses w))); auto.
Qed.

Lemma updateStreak_storage_same_day c w :
  storage w !! "lastVisit" = Some (VStr (today c)) ->
  storage (run (updateStreak c) w) = storage w.
Proof.
  intros H. unfold run. rewrite updateStreak_eq, (notVisitedToday_false _ _ H).
  now destruct (lastError w (accesses w)).
Qed.

Lemma updateStreakWithCount_storage c v w :
  storage (run (updateStreakWithCount c v) w) = storage w \/
  storage (run (updateStreakWithCount c v) w) = merge_items (syncedItems c v) (storage w).
Proof.
  unfold run. rewrite updateStreakWithCount_eq.
  destruct (lastError w (accesses w)), (lastError w (S (accesses w))); auto.
Qed.

Lemma manualSyncResults_storage c tab err results w :
  storage (run (manualSyncResults c tab err results) w) = storage w \/
  exists r, results = Some r /\
    storage (run (manualSyncResults c tab err results) w)
    = merge_items (syncItems c (value_of_observed r)) (storage w).
Proof.
  unfold run, manualSyncResults, bind, emit, storage_set.
  destruct err; [now left|].
  destruct results as [r|]; [|now left].
  unfold extracted. destruct (observed_truthy r && negb (isNaN r)); [|now left].
  destruct (lastError w (accesses w)); [now left|].
  right. exists r. split; reflexivity.
Qed.

Lemma forceSyncResults_storage c tab today0 am err results w :
  storage (run (forceSyncResults c tab today0 am err results) w) = storage w \/
  exists r, results = Some r /\
    (storage (run (forceSyncResults c tab today0 am err results) w)
     = merge_items (syncItems c (value_of_observed r)) (storage w) \/
     am = true /\
     storage (run (forceSyncResults c tab today0 am err results) w)
     = merge_items (maintainedItems today0)
         (merge_items (syncItems c (value_of_observed r)) (storage w))).
Proof.
  unfold run, forceSyncResults, bind, emit, storage_set, ret.
  destruct err; [now left|].
  destruct results as [r|]; [|now left].
  unfold extracted. destruct (observed_truthy r && negb (isNaN r)); [|now left].
  destruct (lastError w (accesses w)); [now left|].
  right. exists r. split; [reflexivity|].
  cbn [negb fst snd count_access store storage lastError accesses].
  destruct am; [|now left].
  cbn [fst snd count_access store storage lastError accesses].
  destruct (lastError w (S (accesses w))); [left | right]; auto.
Qed.

(** ** The sync-time invariant *)

Lemma syncInvariant_synced (s : gmap string value) :
  s !! "syncedWithDailyDev" = Some (VBool true) -> syncInvariant s.
Proof. intros H _. unfold field. now rewrite H. Qed.

Lemma syncInvariant_no_time (s : gmap string value) :
  hasSyncTime s = false -> syncInvariant s.
Proof. intros H H'. congruence. Qed.

Lemma hasSyncTime_lookup (s s' : gmap string value) :
  s' !! "lastSyncTime" = s !! "lastSyncTime" -> hasSyncTime s' = hasSyncTime s.
Proof. intros H. unfold hasSyncTime, field. now rewrite H. Qed.

(** C6, as stated, fails: from a state synced on Sunday, which satisfies the
    invariant, the internal increment path on Monday sets
    [syncedWithDailyDev] to false and leaves Sunday's [lastSyncTime]. *)
Lemma updateStreak_breaks_syncInvariant :
  syncInvariant (storage synced_sunday) /\
  ~ syncInvariant (storage (run (updateStreak monday_evening) synced_sunday)).
Proof.
  unfold syncInvariant. split.
  - intros _. vm_compute. reflexivity.
  - intros H. assert (Ht : hasSyncTime (storage (run (updateStreak monday_evening)
                                                   synced_sunday)) = true)
      by (vm_compute; reflexivity).
    assert (Hf : field (storage (run (updateStreak monday_evening) synced_sunday))
                   "syncedWithDailyDev" = VBool false)
      by (vm_compute; reflexivity).
    specialize (H Ht). rewrite Hf in H. clear Ht Hf. discriminate H.
Qed.

(** C6 (amended): the invariant holds in the state the install handler
    writes and is preserved by the install handler, by the external-sync path
    and by both forced syncs.  The internal increment path never writes
    [lastSyncTime]; it preserves the invariant from the states that hold no
    sync time. *)
Theorem syncInvariant_preserved c v tab today0 alreadyMaintained err results w :
  syncInvariant (storage fresh_install) /\
  (syncInvariant (storage w) -> syncInvariant (storage (run (onInstalled c) w))) /\
  (syncInvariant (storage w) ->
   syncInvariant (storage (run (updateStreakWithCount c v) w))) /\
  (syncInvariant (storage w) ->
   syncInvariant (storage (run (manualSyncResults c tab err results) w))) /\
  (syncInvariant (storage w) ->
   syncInvariant
     (storage (run (forceSyncResults c tab today0 alreadyMaintained err results) w))) /\
  storage (run (updateStreak c) w) !! "lastSyncTime" = storage w !! "lastSyncTime" /\
  (hasSyncTime (storage w) = false ->
   syncInvariant (storage (run (updateStreak c) w))).
Proof.
  assert (Hinit : forall s : gmap string value, syncInvariant (merge_items initialItems s)).
  { intros s. apply syncInvariant_no_time. unfold hasSyncTime, field.
    now lookup_items. }
  assert (Htime : storage (run (updateStreak c) w) !! "lastSyncTime"
                  = storage w !! "lastSyncTime").
  { destruct (updateStreak_storage c w) as [-> | ->];
      [reflexivity | apply internalItems_lastSyncTime]. }
  split; [apply Hinit|].
  split.
  { intros Hinv. unfold run, onInstalled, setupAlarms, bind, storage_set, emit.
    destruct (lastError w (accesses w)); [exact Hinv | apply Hinit]. }
  split.
  { intros Hinv. destruct (updateStreakWithCount_storage c v w) as [-> | ->];
      [exact Hinv | apply syncInvariant_synced, syncedItems_synced]. }
  split.
  { intros Hinv.
    destruct (manualSyncResults_storage c tab err results w) as [-> | (r & _ & ->)];
      [exact Hinv | apply syncInvariant_synced, syncItems_synced]. }
  split.
  { intros Hinv.
    destruct (forceSyncResults_storage c tab today0 alreadyMaintained err results w)
      as [-> | (r & _ & [-> | [_ ->]])];
      [exact Hinv | apply syncInvariant_synced, syncItems_synced |].
    apply syncInvariant_synced. now lookup_items. }
  split; [exact Htime|].
  intros Hno. apply syncInvariant_no_time.
  now rewrite (hasSyncTime_lookup _ _ Htime).
Qed.

Lemma syncInvariant_preserved_witness :
  syncInvariant (storage visited_sunday) /\
  syncInvariant
    (storage (run (updateStreakWithCount monday_evening (VNum (NInt 42))) visited_sunday)) /\
  hasSyncTime (storage visited_sunday) = false /\
  syncInvariant (storage (run (updateStreak monday_evening) visited_sunday)).
Proof.
  assert (Hno : hasSyncTime (storage visited_sunday) = false)
    by (vm_compute; reflexivity).
  assert (Hinv : syncInvariant (storage visited_sunday))
    by (intros H; rewrite Hno in H; discriminate H).
  pose proof (syncInvariant_preserved monday_evening (VNum (NInt 42)) 7
                "Mon Nov 02 2026" false false None visited_sunday)
    as (_ & _ & H3 & _ & _ & _ & H7).
  exact (conj Hinv (conj (H3 Hinv) (conj Hno (H7 Hno)))).
Defined.

(** ** Handlers that do not write *)

Lemma readonly_ret {A} (a : A) : readonly (ret a).
Proof. intros w. reflexivity. Qed.

Lemma readonly_emit e : readonly (emit e).
Proof. intros w. reflexivity. Qed.

Lemma readonly_get keys : readonly (storage_get keys).
Proof. intros w. reflexivity. Qed.

Lemma readonly_bind {A B} (m : M A) (k : A -> M B) :
  readonly m -> (forall a, readonly (k a)) -> readonly (bind m k).
Proof.
  intros Hm Hk w. unfold run, bind.
  specialize (Hm w). unfold run in Hm.
  destruct (m w) as [[a w1] t1]. cbn [fst snd] in Hm.
  specialize (Hk a w1). unfold run in Hk.
  destruct (k a w1) as [[b w2] t2]. cbn [fst snd] in *. congruence.
Qed.

Ltac readonly :=
  repeat first
    [ apply readonly_ret
    | apply readonly_emit
    | apply readonly_get
    | apply readonly_bind; [|intros ?]
    | match goal with
      | |- readonly (if ?b then _ else _) => destruct b
      | |- readonly (match ?x with _ => _ end) => destruct x
      end ].

Lemma readonly_handleDailyDevPageLoad c tabId : readonly (handleDailyDevPageLoad c tabId).
Proof. unfold handleDailyDevPageLoad, clickArticleAndUpdateStreak. readonly. Qed.

Lemma readonly_forceSyncStreakFromDailyDev c : readonly (forceSyncStreakFromDailyDev c).
Proof. unfold forceSyncStreakFromDailyDev. readonly. Qed.

Lemma readonly_checkStreakAndNotify c isUrgent : readonly (checkStreakAndNotify c isUrgent).
Proof. unfold checkStreakAndNotify. readonly. Qed.

Lemma readonly_executeStreakFailsafe c : readonly (executeStreakFailsafe c).
Proof. unfold executeStreakFailsafe. readonly. Qed.

Lemma readonly_onAlarm c name : readonly (onAlarm c name).
Proof.
  unfold onAlarm.
  destruct (String.eqb name "forceStreakSync");
    [apply readonly_forceSyncStreakFromDailyDev|].
  apply readonly_bind; [apply readonly_get|]. intros [result|]; [|apply readonly_ret].
  destruct (notVisitedToday c result); [|apply readonly_ret].
  destruct (String.eqb name "firstStreakReminder" || String.eqb name "secondStreakReminder");
    [apply readonly_checkStreakAndNotify|].
  destruct (String.eqb name "firstStreakFailsafe" || String.eqb name "secondStreakFailsafe");
    [apply readonly_executeStreakFailsafe | apply readonly_ret].
Qed.

Lemma readonly_listeners c l tabId complete url :
  readonly (dispatch c (ListenerCalled l tabId complete url)).
Proof.
  destruct l; cbn [dispatch];
    unfold articleLoadListener, manualSyncTabLoadListener, forceSyncTabLoadListener,
      failsafeTabLoadListener; readonly.
Qed.

Lemma readonly_tabCreated c k err tabId : readonly (dispatch c (TabCreated k err tabId)).
Proof.
  destruct k; cbn [dispatch];
    unfold manualSyncTabCreated, forceSyncTabCreated, failsafeTabCreated; readonly.
Qed.

Lemma readonly_timers c k : readonly (dispatch c (TimerFired k)).
Proof.
  destruct k; cbn [dispatch];
    unfold manualSyncTimeout, forceSyncTimeout, clickArticleAndUpdateStreak; readonly.
Qed.

Lemma extracted_Some results r : extracted results = Some r -> results = Some r.
Proof.
  unfold extracted. destruct results as [r'|]; [|discriminate].
  destruct (observed_truthy r' && negb (isNaN r')); [congruence | discriminate].
Qed.

(** ** Once the day is maintained *)

Lemma writes_app t1 t2 : writes (t1 ++ t2) = writes t1 ++ writes t2.
Proof.
  induction t1 as [|e t1 IH]; [reflexivity|].
  destruct e; cbn [app writes]; now rewrite ?IH.
Qed.

Lemma nowrites_ret {A} (a : A) : nowrites (ret a).
Proof. intros w. reflexivity. Qed.

Lemma nowrites_emit e : writes [e] = [] -> nowrites (emit e).
Proof. intros H w. exact H. Qed.

Lemma nowrites_get keys : nowrites (storage_get keys).
Proof. intros w. reflexivity. Qed.

Lemma nowrites_bind {A B} (m : M A) (k : A -> M B) :
  nowrites m -> (forall a, nowrites (k a)) -> nowrites (bind m k).
Proof.
  intros Hm Hk w. unfold effects, bind.
  specialize (Hm w). unfold effects in Hm.
  destruct (m w) as [[a w1] t1]. cbn [snd] in Hm.
  specialize (Hk a w1). unfold effects in Hk.
  destruct (k a w1) as [[b w2] t2]. cbn [snd] in *.
  now rewrite writes_app, Hm, Hk.
Qed.

Ltac nowrites :=
  repeat first
    [ apply nowrites_ret
    | apply nowrites_emit; reflexivity
    | apply nowrites_get
    | apply nowrites_bind; [|intros ?]
    | match goal with
      | |- nowrites (if ?b then _ else _) => destruct b
      | |- nowrites (match ?x with _ => _ end) => destruct x
      end ].

Lemma nowrites_onAlarm c name : nowrites (onAlarm c name).
Proof.
  unfold onAlarm.
  destruct (String.eqb name "forceStreakSync");
    [unfold forceSyncStreakFromDailyDev; nowrites|].
  apply nowrites_bind; [apply nowrites_get|]. intros [result|]; [|apply nowrites_ret].
  destruct (notVisitedToday c result); [|apply nowrites_ret].
  destruct (String.eqb name "firstStreakReminder" || String.eqb name "secondStreakReminder");
    [unfold checkStreakAndNotify; nowrites|].
  destruct (String.eqb name "firstStreakFailsafe" || String.eqb name "secondStreakFailsafe");
    [unfold executeStreakFailsafe; nowrites | apply nowrites_ret].
Qed.

Lemma writes_updateStreak c w items :
  In items (writes (effects (updateStreak c) w)) ->
  notVisitedToday c (storage w) = true /\
  items = internalItems c (newStreak c (pick ["streak"; "lastVisit"] (storage w))).
Proof.
  unfold effects. rewrite updateStreak_eq.
  destruct (lastError w (accesses w)); [intros []|].
  destruct (notVisitedToday c (storage w)); [|intros []].
  cbn zeta. destruct (lastError w (S (accesses w))); cbn [snd writes In];
    intros [<- | []]; split; reflexivity.
Qed.

Lemma writes_updateStreakWithCount c v w items :
  In items (writes (effects (updateStreakWithCount c v) w)) -> items = syncedItems c v.
Proof.
  unfold effects. rewrite updateStreakWithCount_eq.
  destruct (lastError w (accesses w)); [intros []|].
  destruct (lastError w (S (accesses w))); [intros [<- | []]; reflexivity|].
  destruct (notVisitedToday c (storage w)); intros [<- | []]; reflexivity.
Qed.

Lemma writes_manualSyncResults c tab err results w items :
  In items (writes (effects (manualSyncResults c tab err results) w)) ->
  exists r, results = Some r /\ items = syncItems c (value_of_observed r).
Proof.
  unfold effects, manualSyncResults, bind, emit, storage_set.
  destruct err; [intros []|].
  destruct (extracted results) as [r|] eqn:Hr; [|intros []].
  apply extracted_Some in Hr.
  destruct (lastError w (accesses w)); intros [<- | []]; exists r; split;
    assumption || reflexivity.
Qed.

Lemma writes_forceSyncResults c tab today0 am err results w items :
  In items (writes (effects (forceSyncResults c tab today0 am err results) w)) ->
  exists r, results = Some r /\
    (items = syncItems c (value_of_observed r) \/
     am = true /\ items = maintainedItems today0).
Proof.
  unfold effects, forceSyncResults, bind, emit, storage_set, ret.
  destruct err; [intros []|].
  destruct (extracted results) as [r|] eqn:Hr; [|intros []].
  apply extracted_Some in Hr.
  destruct (lastError w (accesses w)); cbn [negb fst snd];
    [intros [<- | []]; exists r; split; [assumption | left; reflexivity]|].
  destruct am; cbn [fst snd app writes In].
  - intros [<- | [<- | []]]; exists r; (split; [assumption|]);
      [left; reflexivity | right; split; reflexivity].
  - intros [<- | []]. exists r. split; [assumption | left; reflexivity].
Qed.

(** Every write a handler other than the install handler issues has one of
    the shapes of [write_shape], for the store the handler read. *)
Lemma dispatch_writes c ev w items :
  ev <> Installed ->
  In items (writes (effects (dispatch c ev) w)) ->
  write_shape c ev (storage w) items.
Proof.
  intros Hev.
  destruct ev as [|name|action|tabId complete url|l tabId complete url|k err tabId
                  |err results|k err results|k]; cbn [dispatch].
  - congruence.
  - now rewrite nowrites_onAlarm.
  - unfold onMessage. destruct (String.eqb action "forceSyncStreak"); intros [].
  - assert (H : nowrites (onTabUpdated c tabId complete url))
      by (unfold onTabUpdated, handleDailyDevPageLoad, clickArticleAndUpdateStreak;
          nowrites).
    now rewrite H.
  - assert (H : nowrites (dispatch c (ListenerCalled l tabId complete url)))
      by (destruct l; cbn [dispatch];
          unfold articleLoadListener, manualSyncTabLoadListener,
            forceSyncTabLoadListener, failsafeTabLoadListener; nowrites).
    cbn [dispatch] in H. now rewrite H.
  - assert (H : nowrites (dispatch c (TabCreated k err tabId)))
      by (destruct k; cbn [dispatch];
          unfold manualSyncTabCreated, forceSyncTabCreated, failsafeTabCreated;
          nowrites).
    cbn [dispatch] in H. now rewrite H.
  - unfold clickResults. destruct err; [intros []|].
    destruct results as [st|]; [|intros []]. cbn [event_observation].
    destruct (clicked st || onArticlePage st).
    + destruct (negb (is_null (streakCount st)) && negb (isNaN (streakCount st))).
      * intros H. apply writes_updateStreakWithCount in H.
        right. left. eexists. split; [reflexivity | left; exact H].
      * intros H. left. now apply writes_updateStreak.
    + destruct (articlesFound st && linkFound st); intros [].
  - destruct k; cbn [dispatch]; try (intros []).
    + unfold articleStreakResults. destruct err.
      * intros H. left. now apply writes_updateStreak.
      * destruct (extracted results) as [r|] eqn:Hr.
        -- apply extracted_Some in Hr. subst results. cbn [event_observation].
           intros H. apply writes_updateStreakWithCount in H.
           right. left. eexists. split; [reflexivity | left; exact H].
        -- intros H. left. now apply writes_updateStreak.
    + intros H. apply writes_manualSyncResults in H as (r & -> & ->).
      right. left. eexists. split; [reflexivity | right; reflexivity].
    + intros H. apply writes_forceSyncResults in H as (r & -> & [-> | [-> ->]]).
      * right. left. eexists. split; [reflexivity | right; reflexivity].
      * right. right. exists tabId, today0, err, (Some r). split; reflexivity.
  - assert (H : nowrites (dispatch c (TimerFired k)))
      by (destruct k; cbn [dispatch];
          unfold manualSyncTimeout, forceSyncTimeout, clickArticleAndUpdateStreak;
          nowrites).
    cbn [dispatch] in H. now rewrite H.
Qed.

(** C4, as stated, fails: with Monday maintained and a stored streak of 10, a
    click result that completes late with an observed count of 3, or a forced
    sync that extracts 3, lowers the stored streak to 3. *)
Lemma late_observation_lowers_streak :
  storage maintained_monday !! "lastVisit" = Some (VStr (today monday_evening)) /\
  storage maintained_monday !! "streak" = Some (VNum (NInt 10)) /\
  storage (run (dispatch monday_evening
                  (ClickScriptDone false (Some (on_article (ONum (NInt 3))))))
             maintained_monday) !! "streak" = Some (VNum (NInt 3)) /\
  storage (run (dispatch monday_evening
                  (ExtractScriptDone (ForceSyncResults 7 "Mon Nov 02 2026" true) false
                     (Some (ONum (NInt 3)))))
             maintained_monday) !! "streak" = Some (VNum (NInt 3)).
Proof. vm_compute. repeat split. Qed.

(** A forced sync that found Monday maintained as its alarm fired and whose
    result arrives after midnight writes Monday's date over Tuesday's, and
    the next reminder notifies again. *)
Example stale_forced_sync_rewinds_lastVisit :
  let w' := run (dispatch tuesday_after_midnight
                   (ExtractScriptDone (ForceSyncResults 7 "Mon Nov 02 2026" true) false
                      (Some (ONum (NInt 11)))))
              maintained_tuesday in
  storage maintained_tuesday !! "lastVisit" = Some (VStr (today tuesday_after_midnight)) /\
  storage w' !! "lastVisit" = Some (VStr "Mon Nov 02 2026") /\
  existsb is_notification
    (effects (onAlarm tuesday_after_midnight "firstStreakReminder") w') = true.
Proof. vm_compute. repeat split. Qed.

(** A write the internal path issued after reading Sunday's store lands after
    an external sync has stored 42 for Monday: the streak becomes 6. *)
Example stale_internal_write_lands :
  let issued := writes (effects (updateStreak monday_evening) visited_sunday) in
  let synced := storage (run (updateStreakWithCount monday_evening (VNum (NInt 42)))
                           visited_sunday) in
  synced !! "streak" = Some (VNum (NInt 42)) /\
  synced !! "lastVisit" = Some (VStr (today monday_evening)) /\
  (merge_items <$> issued) = [merge_items (internalItems monday_evening (VNum (NInt 6)))] /\
  merge_items (internalItems monday_evening (VNum (NInt 6))) synced !! "streak"
  = Some (VNum (NInt 6)).
Proof. vm_compute. repeat split. Qed.

(** C4 (amended): once [lastVisit] equals today, every write that a handler
    other than the install handler issues that day, whenever it lands (also
    after other handlers' writes), leaves [streakMaintainedToday] true if it
    was true, and leaves [lastVisit] at today, except for the second write
    of an alarm-triggered forced sync that found the streak maintained as its
    alarm fired: it writes back the date taken then.  The stored streak is
    left as it is, or overwritten with the count the event brought from the
    page (which may be lower), or, by the internal path when it read the
    store before the day was maintained, with the count it computed from
    that read.  Here [w] is the world the handler read at clock reading [c]
    and [s] the store on which its write lands. *)
Theorem same_day_maintained_is_kept c ev w items s :
  ev <> Installed ->
  In items (writes (effects (dispatch c ev) w)) ->
  s !! "lastVisit" = Some (VStr (today c)) ->
  let s' := merge_items items s in
  (s' !! "lastVisit" = Some (VStr (today c)) \/
   exists tab today0 err results,
     ev = ExtractScriptDone (ForceSyncResults tab today0 true) err results /\
     s' !! "lastVisit" = Some (VStr today0)) /\
  (s !! "streakMaintainedToday" = Some (VBool true) ->
   s' !! "streakMaintainedToday" = Some (VBool true)) /\
  (s' !! "streak" = s !! "streak" \/
   (exists v, event_observation ev = Some v /\ s' !! "streak" = Some v) \/
   notVisitedToday c (storage w) = true /\
   s' !! "streak" = Some (newStreak c (pick ["streak"; "lastVisit"] (storage w)))).
Proof.
  intros Hev Hin Hvisit s'. subst s'.
  destruct (dispatch_writes c ev w items Hev Hin)
    as [[Hnot ->] | [(v & Hobs & [-> | ->]) | (tab & today0 & err & results & Hevent & ->)]].
  - rewrite internalItems_lastVisit, internalItems_maintained, internalItems_streak.
    split; [now left|]. split; [reflexivity|]. right. right. now split.
  - rewrite syncedItems_lastVisit, syncedItems_maintained, syncedItems_streak.
    split; [now left|]. split; [reflexivity|]. right. left. now exists v.
  - rewrite syncItems_lastVisit, syncItems_maintained, syncItems_streak.
    split; [now left|]. split; [tauto|]. right. left. now exists v.
  - split; [|split].
    + right. exists tab, today0, err, results. split; [exact Hevent | now lookup_items].
    + intros _. now lookup_items.
    + left. now lookup_items.
Qed.

Lemma same_day_maintained_is_kept_witness :
  let ev := ClickScriptDone false (Some (on_article (ONum (NInt 12)))) in
  let items := syncedItems monday_evening (VNum (NInt 12)) in
  let s' := merge_items items (storage maintained_monday) in
  s' !! "lastVisit" = Some (VStr (today monday_evening)) /\
  s' !! "streakMaintainedToday" = Some (VBool true).
Proof.
  intros ev items s'.
  assert (Hin : In items (writes (effects (dispatch monday_evening ev) visited_sunday)))
    by (vm_compute; left; reflexivity).
  assert (Hvisit : storage maintained_monday !! "lastVisit"
                   = Some (VStr (today monday_evening))) by (vm_compute; reflexivity).
  pose proof (same_day_maintained_is_kept monday_evening ev visited_sunday items
                (storage maintained_monday) ltac:(discriminate) Hin Hvisit)
    as (H1 & H2 & _).
  split.
  - destruct H1 as [H1 | (tab & today0 & err & results & Hevent & _)];
      [exact H1 | discriminate Hevent].
  - apply H2. vm_compute. reflexivity.
Defined.

(** ** Reading numbers off the page *)

Lemma all_digits_snoc cur a :
  all_digits cur = true -> is_digit a = true -> all_digits (cur +:+ String a "") = true.
Proof.
  intros Hc Ha. induction cur as [|b cur IH].
  - change (is_digit a && true = true). now rewrite Ha.
  - change (is_digit b && all_digits (cur +:+ String a "") = true).
    cbn [all_digits] in Hc. apply andb_prop in Hc as [Hb Hc]. rewrite Hb. now apply IH.
Qed.

Lemma digitRunsFrom_digits s : forall cur,
  all_digits cur = true -> Forall (fun m => all_digits m = true) (digitRunsFrom cur s).
Proof.
  induction s as [|a s IH]; intros cur Hcur; cbn [digitRunsFrom].
  - destruct (String.eqb cur ""); [constructor | now repeat constructor].
  - destruct (is_digit a) eqn:Ha.
    + apply IH. now apply all_digits_snoc.
    + destruct (String.eqb cur ""); [now apply IH|].
      constructor; [assumption | now apply IH].
Qed.

Lemma parseDigits_nonneg m : forall acc,
  all_digits m = true -> 0 <= acc -> 0 <= parseDigits acc m.
Proof.
  induction m as [|a m IH]; intros acc Hm Hacc; cbn [parseDigits]; [assumption|].
  cbn [all_digits] in Hm. apply andb_prop in Hm as [Ha Hm].
  apply IH; [assumption|].
  unfold is_digit in Ha. apply andb_prop in Ha as [Ha _].
  apply Nat.leb_le in Ha. lia.
Qed.

Lemma firstNumber_nonneg s n : firstNumber s = Some n -> 0 <= n.
Proof.
  unfold firstNumber, digitRuns.
  pose proof (digitRunsFrom_digits s "" eq_refl) as H.
  destruct (digitRunsFrom "" s) as [|m ms]; [discriminate|].
  intros [= <-]. inversion H; subst. now apply parseDigits_nonneg.
Qed.

Lemma scanStreakTexts_nonneg els n : scanStreakTexts els = Returned n -> 0 <= n.
Proof.
  induction els as [|el els IH]; cbn [scanStreakTexts]; [discriminate|].
  destruct (text_of el) as [text|]; [|discriminate].
  destruct (firstNumber text) as [k|] eqn:Hk; [|exact IH].
  destruct (mentionsStreak text); [|exact IH].
  intros [= <-]. eapply firstNumber_nonneg, Hk.
Qed.

Lemma scanShortTexts_nonneg els n : scanShortTexts els = Some n -> 0 <= n.
Proof.
  induction els as [|el els IH]; cbn [scanShortTexts]; [discriminate|].
  destruct (text_of el) as [text|]; [|exact IH].
  destruct (negb (String.eqb text "") && (Z.of_nat (String.length text) <? 50)
            && mentionsStreak text); [|exact IH].
  destruct (firstNumber text) as [k|] eqn:Hk; [|exact IH].
  intros [= <-]. eapply firstNumber_nonneg, Hk.
Qed.


Lemma probeSelectors_nonneg doc selectors : forall streakElement n,
  probeSelectors doc selectors streakElement = inl n -> 0 <= n.
Proof.
  induction selectors as [|selector rest IH]; intros se n; cbn [probeSelectors];
    [discriminate|].
  destruct (querySelectorAll doc selector) as [msg|[|first more]]; try apply IH.
  destruct (scanStreakTexts (first :: more)) as [k| |] eqn:Hk; try apply IH.
  intros [= <-]. eapply scanStreakTexts_nonneg, Hk.
Qed.

Lemma readStreakElement_nonneg el n : readStreakElement el = Returned n -> 0 <= n.
Proof.
  unfold readStreakElement.
  destruct (text_of el) as [text|]; [|discriminate].
  destruct (firstNumber text) as [k|] eqn:Hk.
  { intros [= <-]. eapply firstNumber_nonneg, Hk. }
  destruct (attribute (ariaLabel el)) as [label|].
  { destruct (firstNumber label) as [k|] eqn:Hl; [|discriminate].
    intros [= <-]. eapply firstNumber_nonneg, Hl. }
  destruct (attribute (title el)) as [t|]; [|discriminate].
  destruct (firstNumber t) as [k|] eqn:Ht; [|discriminate].
  intros [= <-]. eapply firstNumber_nonneg, Ht.
Qed.

Lemma natural_ONum n : 0 <= n -> natural (ONum (NInt n)) = true.
Proof. intros H. now apply Z.leb_le. Qed.


Lemma aggressiveUpdate_natural doc current :
  natural current = true -> natural (aggressiveUpdate doc current) = true.
Proof.
  intros H. unfold aggressiveUpdate.
  destruct (querySelectorAll doc "*") as [|els]; [assumption|].
  destruct (scanShortTexts els) as [n|] eqn:Hn; [|assumption].
  eapply natural_ONum, scanShortTexts_nonneg, Hn.
Qed.

Lemma extractStreakCount_natural doc : natural (extractStreakCount doc) = true.
Proof.
  unfold extractStreakCount.
  destruct (probeSelectors doc possibleSelectors
              (getElementById doc "reading-streak-header-button")) as [n|se] eqn:Hp.
  { eapply natural_ONum, probeSelectors_nonneg, Hp. }
  destruct se as [el|]; cbn [from_option]; [|now apply aggressiveUpdate_natural].
  destruct (readStreakElement el) as [n| |] eqn:Hr;
    [|reflexivity | now apply aggressiveUpdate_natural].
  destruct (n =? 0); [now apply aggressiveUpdate_natural|].
  eapply natural_ONum, readStreakElement_nonneg, Hr.
Qed.



Lemma natural_cases o :
  natural o = true -> o = ONull \/ exists n, 0 <= n /\ o = ONum (NInt n).
Proof.
  destruct o as [|[n| | |]]; cbn [natural]; try discriminate; [now left|].
  intros H. right. exists n. split; [now apply Z.leb_le | reflexivity].
Qed.


(** ** Validation of the observed count *)



(** Scenario of a page that shows no streak: the click script reports
    [null], the observation is discarded and the internal path counts the
    visit. *)
Example unreadable_page_falls_back :
  let st := (clickFirstArticle bare_article_page).1 in
  streakCount st = ONull /\
  extractStreakCountFromPage bare_article_page = ONull /\
  storage (run (clickResults monday_evening false (Some st)) visited_sunday)
  = storage (run (updateStreak monday_evening) visited_sunday) /\
  storage (run (clickResults monday_evening false (Some st)) visited_sunday)
    !! "streak" = Some (VNum (NInt 6)).
Proof. vm_compute. repeat split. Qed.



(** * Further properties of the handlers *)

(** ** One qualifying update per day *)

Lemma updateStreak_quiet_same_day c w :
  storage w !! "lastVisit" = Some (VStr (today c)) ->
  existsb is_notification (effects (updateStreak c) w) = false.
Proof.
  intros H. unfold effects. rewrite updateStreak_eq, (notVisitedToday_false _ _ H).
  now destruct (lastError w (accesses w)).
Qed.

Lemma updateStreak_lastVisit c w :
  lastError w (accesses w) = false ->
  lastError w (S (accesses w)) = false ->
  storage (run (updateStreak c) w) !! "lastVisit" = Some (VStr (today c)).
Proof.
  intros E1 E2. unfold run. rewrite updateStreak_eq, E1.
  destruct (notVisitedToday c (storage w)) eqn:Hn.
  - cbn zeta. rewrite E2. cbn [fst snd count_access store storage].
    apply internalItems_lastVisit.
  - cbn [fst snd count_access storage].
    unfold notVisitedToday in Hn. apply orb_false_elim in Hn as [_ Hn].
    apply negb_false_iff, strict_eq_VStr in Hn. unfold field in Hn.
    destruct (storage w !! "lastVisit") as [x|]; [|discriminate Hn].
    change (default VUndefined (Some x)) with x in Hn. now subst x.
Qed.

Lemma updateStreakWithCount_lastVisit c v w :
  lastError w (accesses w) = false ->
  lastError w (S (accesses w)) = false ->
  storage (run (updateStreakWithCount c v) w) !! "lastVisit" = Some (VStr (today c)).
Proof.
  intros E1 E2. unfold run. rewrite updateStreakWithCount_eq, E1, E2.
  cbn [fst snd count_access store storage]. apply syncedItems_lastVisit.
Qed.

(** After a reconciliation whose read and write succeeded, by either path,
    [updateStreak] called again at any later instant of the same day stores
    nothing and sends no notification: the day's streak is counted once. *)
Theorem updateStreak_once_a_day c c' v w :
  today c' = today c ->
  lastError w (accesses w) = false ->
  lastError w (S (accesses w)) = false ->
  (storage (run (updateStreak c') (run (updateStreak c) w))
   = storage (run (updateStreak c) w) /\
   existsb is_notification (effects (updateStreak c') (run (updateStreak c) w)) = false) /\
  (storage (run (updateStreak c') (run (updateStreakWithCount c v) w))
   = storage (run (updateStreakWithCount c v) w) /\
   existsb is_notification
     (effects (updateStreak c') (run (updateStreakWithCount c v) w)) = false).
Proof.
  intros Hday E1 E2.
  pose proof (updateStreak_lastVisit c w E1 E2) as H1.
  pose proof (updateStreakWithCount_lastVisit c v w E1 E2) as H2.
  rewrite <- Hday in H1, H2.
  repeat split.
  - now apply updateStreak_storage_same_day.
  - now apply updateStreak_quiet_same_day.
  - now apply updateStreak_storage_same_day.
  - now apply updateStreak_quiet_same_day.
Qed.

Lemma updateStreak_once_a_day_witness :
  storage (run (updateStreak monday_night) (run (updateStreak monday_evening) visited_sunday))
  = storage (run (updateStreak monday_evening) visited_sunday) /\
  storage (run (updateStreak monday_evening) visited_sunday) !! "streak"
  = Some (VNum (NInt 6)).
Proof.
  split.
  - apply (updateStreak_once_a_day monday_evening monday_night VNull visited_sunday);
      vm_compute; reflexivity.
  - vm_compute. reflexivity.
Defined.

(** ** Automatic clicking and the failsafe *)

Lemma handleDailyDevPageLoad_eq c tabId w :
  handleDailyDevPageLoad c tabId w =
  (tt, count_access w,
   StorageGet ["lastVisit"] (negb (lastError w (accesses w))) ::
   if negb (lastError w (accesses w)) && notVisitedToday c (storage w)
   then [ExecuteScript tabId ClickFirstArticle ClickResults]
   else []).
Proof.
  unfold handleDailyDevPageLoad, clickArticleAndUpdateStreak, bind, storage_get.
  destruct (lastError w (accesses w)); [reflexivity|].
  rewrite notVisitedToday_pick by set_solver.
  destruct (notVisitedToday c (storage w)); reflexivity.
Qed.

(** A tab update never writes to storage.  It runs the click script, on the
    tab that was updated, exactly when the tab has finished loading a URL
    containing [daily.dev], the stored [lastVisit] could be read and it is
    not today; any other tab update makes no platform call beyond at most
    that read, and none at all for a foreign or still loading page. *)
Theorem page_load_clicks_when_needed c tabId complete url w :
  let eff := effects (onTabUpdated c tabId complete url) w in
  storage (run (onTabUpdated c tabId complete url) w) = storage w /\
  (complete = false \/ from_option (includes "daily.dev") false url = false ->
   eff = []) /\
  (storage w !! "lastVisit" = Some (VStr (today c)) ->
   existsb dependent_action eff = false) /\
  (complete = true ->
   from_option (includes "daily.dev") false url = true ->
   lastError w (accesses w) = false ->
   storage w !! "lastVisit" <> Some (VStr (today c)) ->
   eff = [StorageGet ["lastVisit"] true;
          ExecuteScript tabId ClickFirstArticle ClickResults]).
Proof.
  unfold run, effects, onTabUpdated. repeat split.
  - destruct (complete && from_option (includes "daily.dev") false url);
      [now rewrite handleDailyDevPageLoad_eq | reflexivity].
  - intros [-> | H]; [reflexivity|]. rewrite H, andb_false_r. reflexivity.
  - intros Hvisit.
    destruct (complete && from_option (includes "daily.dev") false url); [|reflexivity].
    rewrite handleDailyDevPageLoad_eq, (notVisitedToday_false _ _ Hvisit), andb_false_r.
    reflexivity.
  - intros -> Hurl E1 Hvisit. rewrite Hurl. cbn [andb].
    now rewrite handleDailyDevPageLoad_eq, E1, (notVisitedToday_true _ _ Hvisit).
Qed.

Lemma page_load_clicks_when_needed_witness :
  effects (onTabUpdated monday_evening 7 true (Some "https://app.daily.dev/")) visited_sunday
  = [StorageGet ["lastVisit"] true; ExecuteScript 7 ClickFirstArticle ClickResults] /\
  existsb dependent_action
    (effects (onTabUpdated monday_evening 7 true (Some "https://app.daily.dev/"))
       maintained_monday) = false.
Proof.
  split.
  - apply (page_load_clicks_when_needed monday_evening 7 true
             (Some "https://app.daily.dev/") visited_sunday); try reflexivity.
    vm_compute. discriminate.
  - apply (page_load_clicks_when_needed monday_evening 7 true
             (Some "https://app.daily.dev/") maintained_monday).
    vm_compute. reflexivity.
Defined.

Lemma executeStreakFailsafe_eq c w :
  executeStreakFailsafe c w =
  (tt, count_access w,
   StorageGet ["streak"; "lastVisit"] (negb (lastError w (accesses w))) ::
   if negb (lastError w (accesses w)) && notVisitedToday c (storage w)
   then [TabsCreate DAILY_DEV_URL true FailsafeTabCreated]
   else []).
Proof.
  unfold executeStreakFailsafe, bind, storage_get.
  destruct (lastError w (accesses w)); [reflexivity|].
  rewrite notVisitedToday_pick by set_solver.
  destruct (notVisitedToday c (storage w)); reflexivity.
Qed.

Lemma onAlarm_failsafe_eq c name w :
  name = "firstStreakFailsafe" \/ name = "secondStreakFailsafe" ->
  onAlarm c name w =
  if lastError w (accesses w) then
    (tt, count_access w, [StorageGet ["lastVisit"] false])
  else if notVisitedToday c (storage w) then
    (tt, count_access (count_access w),
     StorageGet ["lastVisit"] true :: snd (executeStreakFailsafe c (count_access w)))
  else (tt, count_access w, [StorageGet ["lastVisit"] true]).
Proof.
  intros Hname. unfold onAlarm, bind.
  destruct Hname as [-> | ->]; cbn [String.eqb Ascii.eqb Bool.eqb orb];
    unfold storage_get;
    (destruct (lastError w (accesses w)) eqn:E1; [reflexivity|]);
    rewrite notVisitedToday_pick by set_solver;
    (destruct (notVisitedToday c (storage w)); [|reflexivity]);
    rewrite executeStreakFailsafe_eq; reflexivity.
Qed.

(** A failsafe alarm never writes to storage.  When [lastVisit] is today it
    opens no tab; when it is not and both reads succeed, it opens exactly one
    tab on daily.dev, in the foreground, and does nothing else. *)
Theorem failsafe_opens_tab_when_needed c name w :
  name = "firstStreakFailsafe" \/ name = "secondStreakFailsafe" ->
  storage (run (onAlarm c name) w) = storage w /\
  (storage w !! "lastVisit" = Some (VStr (today c)) ->
   existsb dependent_action (effects (onAlarm c name) w) = false) /\
  (storage w !! "lastVisit" <> Some (VStr (today c)) ->
   lastError w (accesses w) = false ->
   lastError w (S (accesses w)) = false ->
   effects (onAlarm c name) w =
   [StorageGet ["lastVisit"] true; StorageGet ["streak"; "lastVisit"] true;
    TabsCreate DAILY_DEV_URL true FailsafeTabCreated]).
Proof.
  intros Hname. unfold run, effects. rewrite (onAlarm_failsafe_eq c name w Hname).
  repeat split.
  - destruct (lastError w (accesses w)), (notVisitedToday c (storage w)); reflexivity.
  - intros Hvisit. rewrite (notVisitedToday_false _ _ Hvisit).
    now destruct (lastError w (accesses w)).
  - intros Hvisit E1 E2. rewrite E1, (notVisitedToday_true _ _ Hvisit).
    rewrite executeStreakFailsafe_eq.
    cbn [count_access lastError accesses storage fst snd].
    now rewrite E2, (notVisitedToday_true _ _ Hvisit).
Qed.

Lemma failsafe_opens_tab_when_needed_witness :
  effects (onAlarm monday_evening "firstStreakFailsafe") visited_sunday =
  [StorageGet ["lastVisit"] true; StorageGet ["streak"; "lastVisit"] true;
   TabsCreate DAILY_DEV_URL true FailsafeTabCreated].
Proof.
  apply (failsafe_opens_tab_when_needed monday_evening "firstStreakFailsafe"
           visited_sunday (or_introl eq_refl)); try reflexivity.
  vm_compute. discriminate.
Defined.

(** ** What the two forced syncs write *)

Lemma extracted_valid r :
  observed_truthy r && negb (isNaN r) = true -> extracted (Some r) = Some r.
Proof. intros H. unfold extracted. now rewrite H. Qed.

(** When the alarm-triggered sync extracts a usable count and its write
    succeeds, it stores that count with [syncedWithDailyDev] true and
    [lastSyncTime] now, and announces the sync.  If the streak was not
    maintained when the alarm fired, [lastVisit] and [streakMaintainedToday]
    stay as stored; if it was, they are written again, [lastVisit] with the
    date taken when the alarm fired. *)
Theorem forced_sync_writes c tab today0 alreadyMaintained r w :
  observed_truthy r && negb (isNaN r) = true ->
  lastError w (accesses w) = false ->
  let m := forceSyncResults c tab today0 alreadyMaintained false (Some r) in
  storage (run m w) !! "streak" = Some (value_of_observed r) /\
  storage (run m w) !! "syncedWithDailyDev" = Some (VBool true) /\
  storage (run m w) !! "lastSyncTime" = Some (VNum (NInt (now c))) /\
  (alreadyMaintained = false ->
   storage (run m w) !! "lastVisit" = storage w !! "lastVisit" /\
   storage (run m w) !! "streakMaintainedToday" = storage w !! "streakMaintainedToday") /\
  (alreadyMaintained = true -> lastError w (S (accesses w)) = false ->
   storage (run m w) !! "lastVisit" = Some (VStr today0) /\
   storage (run m w) !! "streakMaintainedToday" = Some (VBool true)) /\
  List.filter is_notification (effects m w) = [NotificationsCreate "Daily.dev Streak Synced" 0].
Proof.
  intros Hr E1 m. subst m.
  unfold run, effects, forceSyncResults, bind, emit, storage_set, ret.
  rewrite (extracted_valid r Hr), E1.
  cbn [negb fst snd count_access store storage lastError accesses].
  destruct alreadyMaintained.
  - cbn [fst snd count_access store storage lastError accesses].
    destruct (lastError w (S (accesses w))) eqn:E2;
      cbn [fst snd count_access store storage lastError accesses negb app List.filter
           is_notification];
      (repeat split; try discriminate; try (now lookup_items)).
  - cbn [fst snd count_access store storage lastError accesses negb app List.filter
         is_notification].
    repeat split; try discriminate; now lookup_items.
Qed.

Lemma forced_sync_writes_witness :
  let m := forceSyncResults monday_evening 7 "Mon Nov 02 2026" true false
             (Some (ONum (NInt 12))) in
  storage (run m maintained_monday) !! "streak" = Some (VNum (NInt 12)) /\
  storage (run m maintained_monday) !! "lastVisit" = Some (VStr "Mon Nov 02 2026").
Proof.
  intros m.
  pose proof (forced_sync_writes monday_evening 7 "Mon Nov 02 2026" true
                (ONum (NInt 12)) maintained_monday eq_refl eq_refl)
    as (H1 & _ & _ & _ & H5 & _).
  exact (conj H1 (proj1 (H5 eq_refl eq_refl))).
Defined.

(** C2, as stated, fails on the forced syncs: run on a fresh install with an
    extracted count of 42, both store the count and mark it synced, but
    [lastVisit] stays [null] and [streakMaintainedToday] stays false. *)
Lemma forced_sync_skips_lastVisit :
  let forced := run (forceSyncResults monday_evening 7 (today monday_evening) false false
                       (Some (ONum (NInt 42)))) fresh_install in
  let manual := run (manualSyncResults monday_evening 7 false (Some (ONum (NInt 42))))
                  fresh_install in
  storage forced !! "streak" = Some (VNum (NInt 42)) /\
  storage forced !! "syncedWithDailyDev" = Some (VBool true) /\
  storage forced !! "lastVisit" = Some VNull /\
  storage forced !! "lastVisit" <> Some (VStr (today monday_evening)) /\
  storage forced !! "streakMaintainedToday" = Some (VBool false) /\
  storage manual !! "streak" = Some (VNum (NInt 42)) /\
  storage manual !! "lastVisit" <> Some (VStr (today monday_evening)) /\
  storage manual !! "streakMaintainedToday" = Some (VBool false).
Proof. vm_compute. repeat split; discriminate. Qed.

(** C2 (amended): whenever its read and its write succeed,
    [updateStreakWithCount(v)] leaves the streak equal to [v] whatever was
    stored before, with [syncedWithDailyDev] true, [lastSyncTime] the current
    instant, [lastVisit] today and [streakMaintainedToday] true.  A forced
    sync, manual or on the alarm, that extracted a usable count and whose
    write succeeds stores the count, [syncedWithDailyDev] true and
    [lastSyncTime] the current instant, and leaves [lastVisit] and
    [streakMaintainedToday] as stored; only the alarm's sync, when the streak
    was already maintained as its alarm fired, writes them again, with the
    date taken then. *)
Theorem sync_paths_overwrite c tab today0 alreadyMaintained v r w :
  lastError w (accesses w) = false ->
  lastError w (S (accesses w)) = false ->
  observed_truthy r && negb (isNaN r) = true ->
  (let w' := run (updateStreakWithCount c v) w in
   storage w' !! "streak" = Some v /\
   storage w' !! "syncedWithDailyDev" = Some (VBool true) /\
   storage w' !! "lastSyncTime" = Some (VNum (NInt (now c))) /\
   storage w' !! "lastVisit" = Some (VStr (today c)) /\
   storage w' !! "streakMaintainedToday" = Some (VBool true)) /\
  (let w' := run (manualSyncResults c tab false (Some r)) w in
   storage w' !! "streak" = Some (value_of_observed r) /\
   storage w' !! "syncedWithDailyDev" = Some (VBool true) /\
   storage w' !! "lastSyncTime" = Some (VNum (NInt (now c))) /\
   storage w' !! "lastVisit" = storage w !! "lastVisit" /\
   storage w' !! "streakMaintainedToday" = storage w !! "streakMaintainedToday") /\
  (let w' := run (forceSyncResults c tab today0 alreadyMaintained false (Some r)) w in
   storage w' !! "streak" = Some (value_of_observed r) /\
   storage w' !! "syncedWithDailyDev" = Some (VBool true) /\
   storage w' !! "lastSyncTime" = Some (VNum (NInt (now c))) /\
   (alreadyMaintained = false ->
    storage w' !! "lastVisit" = storage w !! "lastVisit" /\
    storage w' !! "streakMaintainedToday" = storage w !! "streakMaintainedToday") /\
   (alreadyMaintained = true ->
    storage w' !! "lastVisit" = Some (VStr today0) /\
    storage w' !! "streakMaintainedToday" = Some (VBool true))).
Proof.
  intros E1 E2 Hr. split; [|split].
  - unfold run. rewrite updateStreakWithCount_eq, E1, E2.
    cbn [fst snd count_access store storage].
    rewrite syncedItems_streak, syncedItems_synced, syncedItems_lastSyncTime,
      syncedItems_lastVisit, syncedItems_maintained.
    repeat split.
  - unfold run, manualSyncResults, bind, emit, storage_set.
    rewrite (extracted_valid r Hr), E1.
    cbn [negb fst snd count_access store storage].
    repeat split; now lookup_items.
  - unfold run, forceSyncResults, bind, emit, storage_set, ret.
    rewrite (extracted_valid r Hr), E1.
    cbn [negb fst snd count_access store storage lastError accesses].
    destruct alreadyMaintained;
      cbn [fst snd count_access store storage lastError accesses].
    + rewrite E2. cbn [fst snd count_access store storage].
      repeat split; try discriminate; now lookup_items.
    + repeat split; try discriminate; now lookup_items.
Qed.

Lemma sync_paths_overwrite_witness :
  let external := run (updateStreakWithCount monday_evening (VNum (NInt 42))) visited_friday in
  let forced := run (forceSyncResults monday_evening 7 (today monday_evening) false false
                       (Some (ONum (NInt 42)))) visited_friday in
  storage visited_friday !! "streak" = Some (VNum (NInt 6)) /\
  storage external !! "streak" = Some (VNum (NInt 42)) /\
  storage external !! "lastVisit" = Some (VStr (today monday_evening)) /\
  storage forced !! "streak" = Some (VNum (NInt 42)) /\
  storage forced !! "lastVisit" = storage visited_friday !! "lastVisit".
Proof.
  intros external forced.
  pose proof (sync_paths_overwrite monday_evening 7 (today monday_evening) false
                (VNum (NInt 42)) (ONum (NInt 42)) visited_friday eq_refl eq_refl eq_refl)
    as ((H1 & _ & _ & H4 & _) & _ & (H5 & _ & _ & H8 & _)).
  split; [vm_compute; reflexivity|].
  exact (conj H1 (conj H4 (conj H5 (proj1 (H8 eq_refl))))).
Defined.

(** The manual sync closes its tab first and answers the popup exactly once.
    It answers with success only when it stored the extracted count, with
    [syncedWithDailyDev] true and [lastSyncTime] now and nothing else
    touched; whenever it answers with a failure, storage is unchanged. *)
Theorem manual_sync_answers_once c tab err results w :
  let m := manualSyncResults c tab err results in
  exists r,
    head (effects m w) = Some (TabsRemove tab) /\
    List.filter is_response (effects m w) = [SendResponse r] /\
    match r with
    | Success v =>
      err = false /\
      (exists o, results = Some o /\ v = value_of_observed o /\ v <> VNum (NInt 0)) /\
      storage (run m w) = merge_items (syncItems c v) (storage w)
    | Failure _ => storage (run m w) = storage w
    end.
Proof.
  intros m. subst m.
  unfold run, effects, manualSyncResults, bind, emit, storage_set.
  destruct err; [eexists; repeat split|].
  destruct results as [o|]; [|eexists; repeat split].
  unfold extracted.
  destruct (observed_truthy o && negb (isNaN o)) eqn:Ho; [|eexists; repeat split].
  destruct (lastError w (accesses w)); [eexists; repeat split|].
  eexists. split; [reflexivity|]. split; [reflexivity|].
  split; [reflexivity|]. split; [|reflexivity].
  exists o. repeat split. intros Hz.
  destruct o as [|[z| | |]]; try discriminate Hz.
  injection Hz as ->. discriminate Ho.
Qed.

(** ** Installation and the daily schedule *)

Lemma getNextReminderTime_bounds c hour minute :
  0 <= hour < 24 -> 0 <= minute < 60 ->
  now c <= getNextReminderTime c hour minute < now c + msPerDay.
Proof.
  intros Hh Hm. pose proof (startOfDay_le_now c) as Hday.
  unfold getNextReminderTime, setHours.
  unfold msPerDay, msPerHour, msPerMinute in *.
  destruct (Z.ltb_spec (startOfDay c (localDay c) + hour * 3600000 + minute * 60000)
              (now c)); lia.
Qed.

Lemma daily_alarm_from_reminder c name hour minute :
  0 <= hour < 24 -> 0 <= minute < 60 ->
  daily_alarm_from c
    (AlarmsCreate name DAILY_CHECK_MINUTES (getNextReminderTime c hour minute)) = true.
Proof.
  intros Hh Hm. pose proof (getNextReminderTime_bounds c hour minute Hh Hm) as [H1 H2].
  unfold daily_alarm_from. apply andb_true_intro. split; [apply andb_true_intro; split|].
  - reflexivity.
  - now apply Z.leb_le.
  - now apply Z.ltb_lt.
Qed.

(** Whatever was stored before and whether or not the write succeeds, the
    install handler schedules the five alarms the alarm listener knows, each
    repeating every 24 hours and, in a time zone with a fixed UTC offset,
    first due within the 24 hours that follow; when the write succeeds the
    five streak keys hold their initial values, whatever streak was stored
    before. *)
Theorem install_resets_and_schedules c w :
  let alarms := List.filter (fun e => negb (is_storage_access e)) (effects (onInstalled c) w) in
  omap alarm_name alarms =
    ["forceStreakSync"; "firstStreakReminder"; "secondStreakReminder";
     "firstStreakFailsafe"; "secondStreakFailsafe"] /\
  forallb (daily_alarm_from c) alarms = true /\
  (lastError w (accesses w) = false ->
   storage (run (onInstalled c) w) !! "streak" = Some (VNum (NInt 0)) /\
   storage (run (onInstalled c) w) !! "lastVisit" = Some VNull /\
   storage (run (onInstalled c) w) !! "streakMaintainedToday" = Some (VBool false) /\
   storage (run (onInstalled c) w) !! "syncedWithDailyDev" = Some (VBool false) /\
   storage (run (onInstalled c) w) !! "lastSyncTime" = Some VNull).
Proof.
  unfold run, effects, onInstalled, setupAlarms, bind, storage_set, emit.
  cbn [fst snd app List.filter is_storage_access negb omap alarm_name forallb].
  split; [reflexivity|]. split.
  - rewrite !daily_alarm_from_reminder; [reflexivity|..]; 
      unfold FORCE_SYNC_HOUR, FORCE_SYNC_MINUTE, FIRST_REMINDER_HOUR,
        FIRST_REMINDER_MINUTE, SECOND_REMINDER_HOUR, SECOND_REMINDER_MINUTE,
        FIRST_FAILSAFE_HOUR, FIRST_FAILSAFE_MINUTE, SECOND_FAILSAFE_HOUR,
        SECOND_FAILSAFE_MINUTE; lia.
  - intros E1. rewrite E1. cbn [count_access store storage].
    repeat split; now lookup_items.
Qed.

Lemma install_resets_and_schedules_witness :
  storage maintained_monday !! "streak" = Some (VNum (NInt 10)) /\
  storage (run (onInstalled monday_evening) maintained_monday) !! "streak"
  = Some (VNum (NInt 0)).
Proof.
  split; [vm_compute; reflexivity|].
  apply (install_resets_and_schedules monday_evening maintained_monday). reflexivity.
Defined.

Lemma localDay_later c : localDay (later msPerDay c) = localDay c + 1.
Proof.
  unfold localDay, later, msPerDay. cbn [now tzOffsetMs].
  replace (now c + 86400000 + tzOffsetMs c) with (now c + tzOffsetMs c + 1 * 86400000) by lia.
  now rewrite Z.div_add by lia.
Qed.

(** The schedule is periodic: 24 hours later, [getNextReminderTime] answers
    24 hours later, for any hour and minute. *)
Theorem getNextReminderTime_daily c hour minute :
  getNextReminderTime (later msPerDay c) hour minute
  = getNextReminderTime c hour minute + msPerDay.
Proof.
  unfold getNextReminderTime, setHours. rewrite localDay_later.
  unfold startOfDay. cbn [later now tzOffsetMs].
  replace ((localDay c + 1) * msPerDay - tzOffsetMs c + hour * msPerHour
           + minute * msPerMinute)
    with (localDay c * msPerDay - tzOffsetMs c + hour * msPerHour
          + minute * msPerMinute + msPerDay) by lia.
  set (r := localDay c * msPerDay - tzOffsetMs c + hour * msPerHour + minute * msPerMinute).
  destruct (Z.ltb_spec r (now c)), (Z.ltb_spec (r + msPerDay) (now c + msPerDay)); lia.
Qed.

(** At the instant it computed, [getNextReminderTime] computes that same
    instant again: an alarm that recomputes its time when it fires is due
    now, not tomorrow. *)
Theorem getNextReminderTime_stable c hour minute :
  0 <= hour < 24 -> 0 <= minute < 60 ->
  getNextReminderTime (at_instant (getNextReminderTime c hour minute) c) hour minute
  = getNextReminderTime c hour minute.
Proof.
  intros Hh Hm.
  assert (Hfix : forall day,
    getNextReminderTime
      (at_instant (startOfDay c day + hour * msPerHour + minute * msPerMinute) c)
      hour minute
    = startOfDay c day + hour * msPerHour + minute * msPerMinute).
  { intros day. unfold getNextReminderTime, setHours, localDay, startOfDay, at_instant.
    cbn [now tzOffsetMs].
    assert (Hd : (day * msPerDay - tzOffsetMs c + hour * msPerHour + minute * msPerMinute
                  + tzOffsetMs c) / msPerDay = day).
    { unfold msPerDay, msPerHour, msPerMinute.
      symmetry. apply Z.div_unique with (r := hour * 3600000 + minute * 60000); lia. }
    rewrite Hd. now rewrite Z.ltb_irrefl. }
  unfold getNextReminderTime at 2 3. unfold setHours.
  destruct (startOfDay c (localDay c) + hour * msPerHour + minute * msPerMinute <? now c).
  - replace (startOfDay c (localDay c) + hour * msPerHour + minute * msPerMinute + msPerDay)
      with (startOfDay c (localDay c + 1) + hour * msPerHour + minute * msPerMinute)
      by (unfold startOfDay; lia).
    apply Hfix.
  - apply Hfix.
Qed.

Lemma getNextReminderTime_stable_witness :
  getNextReminderTime
    (at_instant (getNextReminderTime monday_night FIRST_REMINDER_HOUR FIRST_REMINDER_MINUTE)
       monday_night)
    FIRST_REMINDER_HOUR FIRST_REMINDER_MINUTE
  = getNextReminderTime monday_night FIRST_REMINDER_HOUR FIRST_REMINDER_MINUTE.
Proof.
  apply getNextReminderTime_stable;
    unfold FIRST_REMINDER_HOUR, FIRST_REMINDER_MINUTE; lia.
Defined.

(** ** The popup *)

Lemma notVisitedToday_strict_eq c (m : gmap string value) :
  notVisitedToday c m = negb (strict_eq (field m "lastVisit") (VStr (today c))).
Proof.
  unfold notVisitedToday.
  destruct (strict_eq (field m "lastVisit") (VStr (today c))) eqn:E.
  - apply strict_eq_VStr in E. rewrite E, truthy_today. reflexivity.
  - apply orb_true_r.
Qed.

Lemma popup_visitButton c (m : gmap string value) p :
  visitButton (Popup.updateStreakDisplay c m p) = notVisitedToday c m.
Proof.
  rewrite notVisitedToday_strict_eq. unfold Popup.updateStreakDisplay.
  now destruct (strict_eq (field m "lastVisit") (VStr (today c))).
Qed.

Lemma popupSync_visitButton c hasStreakBox (m : gmap string value) p :
  visitButton (PopupSync.updateStreakDisplay c hasStreakBox m p) = notVisitedToday c m.
Proof.
  rewrite notVisitedToday_strict_eq. unfold PopupSync.updateStreakDisplay.
  now destruct (strict_eq (field m "lastVisit") (VStr (today c))).
Qed.

(** The popup and the background script agree on whether the day is
    maintained, although they test [lastVisit] differently: when the storage
    reads succeed, either popup offers the "visit now" button exactly when a
    reminder alarm firing at that instant would notify; opening the popup
    never changes storage. *)
Theorem popup_agrees_with_reminders c hasStreakBox name w :
  name = "firstStreakReminder" \/ name = "secondStreakReminder" ->
  lastError w (accesses w) = false ->
  lastError w (S (accesses w)) = false ->
  let reminded := existsb is_notification (effects (onAlarm c name) w) in
  visitButton (Popup.initializePopup c w).1.1 = reminded /\
  visitButton (PopupSync.initializePopup c hasStreakBox w).1.1 = reminded /\
  storage (run (Popup.initializePopup c) w) = storage w /\
  storage (run (PopupSync.initializePopup c hasStreakBox) w) = storage w.
Proof.
  intros Hname E1 E2 reminded. subst reminded.
  assert (Hrem : existsb is_notification (effects (onAlarm c name) w)
                 = notVisitedToday c (storage w)).
  { unfold effects. rewrite (onAlarm_reminder_eq c name w Hname), E1.
    destruct (notVisitedToday c (storage w)) eqn:Hn; [|reflexivity].
    rewrite checkStreakAndNotify_eq.
    cbn [count_access lastError accesses storage fst snd].
    now rewrite E2, Hn. }
  rewrite Hrem.
  unfold run, Popup.initializePopup, PopupSync.initializePopup, bind, storage_get, ret.
  rewrite E1. cbn [fst snd count_access storage].
  rewrite popup_visitButton, popupSync_visitButton.
  rewrite !notVisitedToday_pick by in_keys. repeat split.
Qed.

Lemma popup_agrees_with_reminders_witness :
  visitButton (Popup.initializePopup monday_evening visited_sunday).1.1 = true /\
  existsb is_notification (effects (onAlarm monday_evening "firstStreakReminder")
                             visited_sunday) = true.
Proof.
  pose proof (popup_agrees_with_reminders monday_evening true "firstStreakReminder"
                visited_sunday (or_introl eq_refl) eq_refl eq_refl) as (H1 & _).
  split; [rewrite H1|]; vm_compute; reflexivity.
Defined.

(** What the later popup shows after a reconciliation, when every storage
    access succeeds and the popup is opened the same day.  After the
    external-sync path: the observed count (0 if it is falsy), the sync mark,
    the sync time when the page has a place for it, and the "synced" status.
    After the internal path on a day not yet maintained: the new count, no
    sync mark and no sync time, whatever [lastSyncTime] is still stored. *)
Theorem popup_after_reconciliation c c' hasStreakBox v w :
  today c' = today c ->
  lastError w (accesses w) = false ->
  lastError w (S (accesses w)) = false ->
  lastError w (S (S (accesses w))) = false ->
  (PopupSync.initializePopup c' hasStreakBox (run (updateStreakWithCount c v) w)).1.1
  = {| streakCountText := Some (js_or v (VNum (NInt 0)));
       syncIndicator := true;
       syncTimeShown :=
         if negb (now c =? 0) && hasStreakBox then Some (VNum (NInt (now c))) else None;
       statusText := "You've maintained your streak today! (Synced with daily.dev)";
       statusClasses := ["status-success"];
       visitButton := false |} /\
  (storage w !! "lastVisit" <> Some (VStr (today c)) ->
   (PopupSync.initializePopup c' hasStreakBox (run (updateStreak c) w)).1.1
   = {| streakCountText :=
          Some (js_or (newStreak c (storage w)) (VNum (NInt 0)));
        syncIndicator := false;
        syncTimeShown := None;
        statusText := "You've maintained your streak today!";
        statusClasses := ["status-success"];
        visitButton := false |}).
Proof.
  intros Hday E1 E2 E3. split.
  - unfold run. rewrite updateStreakWithCount_eq, E1, E2.
    unfold PopupSync.initializePopup, bind, storage_get, ret.
    cbn [fst snd count_access store storage lastError accesses].
    rewrite E3. cbn [fst snd].
    unfold PopupSync.updateStreakDisplay, PopupSync.updateStatusForCompletedStreak.
    rewrite !field_pick by in_keys.
    rewrite (field_lookup _ _ _ (syncedItems_streak c v (storage w))),
      (field_lookup _ _ _ (syncedItems_lastVisit c v (storage w))),
      (field_lookup _ _ _ (syncedItems_synced c v (storage w))),
      (field_lookup _ _ _ (syncedItems_lastSyncTime c v (storage w))), Hday.
    rewrite (proj2 (strict_eq_VStr _ _) eq_refl).
    cbn [truthy andb blank streakCountText syncIndicator syncTimeShown statusText
         statusClasses visitButton app].
    reflexivity.
  - intros Hvisit. unfold run.
    rewrite updateStreak_eq, E1, (notVisitedToday_true _ _ Hvisit). cbn zeta. rewrite E2.
    unfold PopupSync.initializePopup, bind, storage_get, ret.
    cbn [fst snd count_access store storage lastError accesses].
    rewrite E3. cbn [fst snd].
    unfold PopupSync.updateStreakDisplay, PopupSync.updateStatusForCompletedStreak.
    rewrite !field_pick by in_keys.
    rewrite (field_lookup _ _ _ (internalItems_streak c _ (storage w))),
      (field_lookup _ _ _ (internalItems_lastVisit c _ (storage w))),
      (field_lookup _ _ _ (internalItems_synced c _ (storage w))), Hday.
    rewrite (proj2 (strict_eq_VStr _ _) eq_refl).
    cbn [truthy andb blank streakCountText syncIndicator syncTimeShown statusText
         statusClasses visitButton app].
    unfold newStreak. rewrite !field_pick by in_keys. reflexivity.
Qed.

Lemma popup_after_reconciliation_witness :
  (PopupSync.initializePopup monday_night true
     (run (updateStreakWithCount monday_evening (VNum (NInt 42))) visited_sunday)).1.1
  = {| streakCountText := Some (VNum (NInt 42));
       syncIndicator := true;
       syncTimeShown := Some (VNum (NInt (now monday_evening)));
       statusText := "You've maintained your streak today! (Synced with daily.dev)";
       statusClasses := ["status-success"];
       visitButton := false |}.
Proof.
  pose proof (popup_after_reconciliation monday_evening monday_night true
                (VNum (NInt 42)) visited_sunday
                ltac:(vm_compute; reflexivity) eq_refl eq_refl eq_refl) as [H _].
  exact H.
Defined.

(** ** What the page scripts report *)





(** ** The click script and the handler of its result *)

Lemma updateStreak_no_listener c w :
  existsb is_add_listener (effects (updateStreak c) w) = false.
Proof.
  unfold effects. rewrite updateStreak_eq.
  destruct (lastError w (accesses w)), (notVisitedToday c (storage w)),
    (lastError w (S (accesses w))); reflexivity.
Qed.

Lemma updateStreakWithCount_no_listener c v w :
  existsb is_add_listener (effects (updateStreakWithCount c v) w) = false.
Proof.
  unfold effects. rewrite updateStreakWithCount_eq.
  destruct (lastError w (accesses w)), (notVisitedToday c (storage w)),
    (lastError w (S (accesses w))); reflexivity.
Qed.

Lemma clickResults_reconciles c st w :
  clicked st || onArticlePage st = true ->
  natural (streakCount st) = true ->
  clickResults c false (Some st) w = updateStreak c w \/
  exists n, 0 <= n /\
    clickResults c false (Some st) w = updateStreakWithCount c (VNum (NInt n)) w.
Proof.
  intros Hst Hnat. rewrite (clickResults_article c st w Hst).
  destruct (natural_cases _ Hnat) as [-> | (n & Hn & ->)]; [left; reflexivity|].
  right. exists n. split; [exact Hn | reflexivity].
Qed.

Lemma clickResults_reconciles_no_listener c st w :
  clicked st || onArticlePage st = true ->
  existsb is_add_listener (effects (clickResults c false (Some st)) w) = false.
Proof.
  intros Hst. unfold effects. rewrite (clickResults_article c st w Hst).
  destruct (negb (is_null (streakCount st)) && negb (isNaN (streakCount st)));
    [apply updateStreakWithCount_no_listener | apply updateStreak_no_listener].
Qed.

Lemma attribute_nonempty a s : attribute a = Some s -> s <> "".
Proof.
  unfold attribute. destruct a as [x|]; [|discriminate].
  destruct (String.eqb x "") eqn:E; [discriminate|].
  intros [= <-]. now apply String.eqb_neq.
Qed.

Lemma linkOf_nonempty article url : linkOf article = Some url -> url <> "".
Proof.
  unfold linkOf.
  destruct (String.eqb (tagName article) "A"
            && from_option (includes "/posts/") false (attribute (href article)));
    apply attribute_nonempty.
Qed.

Lemma firstLink_nonempty articles url : firstLink articles = Some url -> url <> "".
Proof.
  induction articles as [|article rest IH]; cbn [firstLink]; [discriminate|].
  destruct (linkOf article) as [u|] eqn:Hu; [|exact IH].
  intros [= <-]. eapply linkOf_nonempty, Hu.
Qed.

(** [clickFirstArticle] reports [clicked] only when the page is already an
    article page; when it schedules a click on a link it reports that link as
    [articleUrl] with [clicked] false.  The handler of its result therefore
    reconciles the streak at once, before the click has happened, whenever
    the link it found contains [/posts/], with [updateStreak] or with a
    non-negative count; it waits for the article page to load only for a link
    without [/posts/] in it. *)
Theorem click_script_and_handler c doc w :
  let st := (clickFirstArticle doc).1 in
  let action := (clickFirstArticle doc).2 in
  clicked st = includes "/posts/" (location_href doc) /\
  (forall url, action = ClickLater url ->
     articleUrl st = Some url /\ clicked st = false /\ url <> "") /\
  (forall url, action = ClickLater url -> includes "/posts/" url = true ->
     clickResults c false (Some st) w = updateStreak c w \/
     exists n, 0 <= n /\
       clickResults c false (Some st) w = updateStreakWithCount c (VNum (NInt n)) w) /\
  (existsb is_add_listener (effects (clickResults c false (Some st)) w) = true ->
   exists url, action = ClickLater url /\ includes "/posts/" url = false).
Proof.
  intros st action. subst st action.
  pose proof (extractStreakCount_natural doc) as Hnat.
  unfold clickFirstArticle.
  generalize dependent (extractStreakCount doc). intros count Hnat.
  destruct (includes "/posts/" (location_href doc)) eqn:Hpage.
  { cbn [fst snd clicked articleUrl]. repeat split; try discriminate.
    rewrite clickResults_reconciles_no_listener by reflexivity. discriminate. }
  destruct (findArticles doc articleSelectors) as [msg|[|a l]];
    try (cbn [fst snd clicked articleUrl]; repeat split; discriminate).
  destruct (firstLink (take 5 (a :: l))) as [url|] eqn:Hlink;
    [|cbn [fst snd clicked articleUrl]; repeat split; discriminate].
  cbn [fst snd clicked articleUrl].
  split; [reflexivity|]. split; [|split].
  - intros url' [= <-]. repeat split. eapply firstLink_nonempty, Hlink.
  - intros url' [= <-] Hposts. apply clickResults_reconciles; [|exact Hnat].
    unfold onArticlePage. cbn [clicked articleUrl from_option orb]. exact Hposts.
  - intros Hl. exists url. split; [reflexivity|].
    destruct (includes "/posts/" url) eqn:Hposts; [|reflexivity].
    rewrite clickResults_reconciles_no_listener in Hl; [discriminate Hl|].
    unfold onArticlePage. cbn [clicked articleUrl from_option orb]. exact Hposts.
Qed.

(** ** Where storage is written, and what is never read *)

(** Alarms, popup messages, tab updates, listeners, tab-creation callbacks
    and timers never write to storage: the stored state changes only on
    installation and on the result of a page script. *)
Theorem only_script_results_write c ev w :
  may_write ev = false -> storage (run (dispatch c ev) w) = storage w.
Proof.
  destruct ev as [|name|action|tabId complete url|l tabId complete url|k err tabId
                  |err results|k err results|k]; cbn [may_write]; try discriminate;
    intros _.
  - apply readonly_onAlarm.
  - unfold dispatch, onMessage. destruct (String.eqb action "forceSyncStreak"); reflexivity.
  - unfold dispatch, onTabUpdated.
    destruct (complete && from_option (includes "daily.dev") false url);
      [apply readonly_handleDailyDevPageLoad | reflexivity].
  - apply (readonly_listeners c l tabId complete url).
  - apply (readonly_tabCreated c k err tabId).
  - apply (readonly_timers c k).
Qed.

Lemma only_script_results_write_witness :
  storage (run (dispatch monday_evening (AlarmFired "forceStreakSync")) visited_sunday)
  = storage visited_sunday.
Proof.
  apply (only_script_results_write monday_evening (AlarmFired "forceStreakSync")
           visited_sunday).
  reflexivity.
Defined.

Lemma agree_refl w : agree w w.
Proof. repeat split. Qed.

Lemma ignores_flag_ret {A} (a : A) : ignores_flag (ret a).
Proof. intros w w' H. repeat split; apply H. Qed.

Lemma ignores_flag_emit e : ignores_flag (emit e).
Proof. intros w w' H. repeat split; apply H. Qed.

Lemma ignores_flag_bind {A B} (m : M A) (k : A -> M B) :
  ignores_flag m -> (forall a, ignores_flag (k a)) -> ignores_flag (bind m k).
Proof.
  intros Hm Hk w w' Hw. unfold bind.
  destruct (Hm w w' Hw) as (Ha & Ht & Hw1).
  destruct (m w) as [[a w1] t1], (m w') as [[a' w1'] t1'].
  cbn [fst snd] in Ha, Ht, Hw1. subst a' t1'.
  destruct (Hk a w1 w1' Hw1) as (Hb & Ht2 & Hw2).
  destruct (k a w1) as [[b w2] t2], (k a w1') as [[b' w2'] t2'].
  cbn [fst snd] in *. subst b' t2'. repeat split; apply Hw2.
Qed.

Lemma pick_agree keys (s s' : gmap string value) :
  "streakMaintainedToday" ∉ keys ->
  (forall k, k <> "streakMaintainedToday" -> s' !! k = s !! k) ->
  pick keys s' = pick keys s.
Proof.
  intros Hk Hs. apply map_eq. intros k. unfold pick.
  apply option_eq. intros v. rewrite !map_lookup_filter_Some. cbn [fst].
  split; intros [Hl Hin]; (split; [|exact Hin]).
  - rewrite <- Hs; [exact Hl|]. intros ->. contradiction.
  - rewrite Hs; [exact Hl|]. intros ->. contradiction.
Qed.

Lemma ignores_flag_get keys :
  "streakMaintainedToday" ∉ keys -> ignores_flag (storage_get keys).
Proof.
  intros Hk w w' (He & Ha & Hs). unfold storage_get. cbn [fst snd].
  rewrite He, Ha, (pick_agree keys _ _ Hk Hs).
  repeat split; cbn [count_access lastError accesses storage]; congruence || apply Hs.
Qed.

Lemma merge_items_agree items (s s' : gmap string value) :
  (forall k, k <> "streakMaintainedToday" -> s' !! k = s !! k) ->
  forall k, k <> "streakMaintainedToday" ->
    merge_items items s' !! k = merge_items items s !! k.
Proof.
  unfold merge_items. revert s s'.
  induction items as [|[key v] items IH]; intros s s' Hs k Hk; cbn [foldl].
  - now apply Hs.
  - apply IH; [|exact Hk]. intros j Hj. cbn [fst snd].
    destruct (decide (key = j)) as [->|Hne].
    + now rewrite !lookup_insert_eq.
    + rewrite !lookup_insert_ne by exact Hne. now apply Hs.
Qed.

Lemma ignores_flag_set items : ignores_flag (storage_set items).
Proof.
  intros w w' (He & Ha & Hs). unfold storage_set. cbn [fst snd].
  rewrite He, Ha.
  destruct (lastError w (accesses w));
    repeat split; cbn [count_access store lastError accesses storage];
    try congruence; try apply Hs.
  now apply merge_items_agree.
Qed.

Ltac not_flag :=
  let H := fresh in
  intros H; apply list_elem_of_In in H; cbn [In] in H;
  repeat (destruct H as [H|H]; [discriminate H|]); exact H.

Ltac ignores_flag :=
  repeat first
    [ apply ignores_flag_ret
    | apply ignores_flag_emit
    | apply ignores_flag_set
    | apply ignores_flag_get; not_flag
    | apply ignores_flag_bind; [|intros ?]
    | match goal with
      | |- ignores_flag (if ?b then _ else _) => destruct b
      | |- ignores_flag (match ?x with _ => _ end) => destruct x
      end ].

Lemma ignores_flag_updateStreak c : ignores_flag (updateStreak c).
Proof. unfold updateStreak. ignores_flag. Qed.

Lemma ignores_flag_updateStreakWithCount c v : ignores_flag (updateStreakWithCount c v).
Proof. unfold updateStreakWithCount. ignores_flag. Qed.

Lemma ignores_flag_forceSyncStreakFromDailyDev c :
  ignores_flag (forceSyncStreakFromDailyDev c).
Proof. unfold forceSyncStreakFromDailyDev. ignores_flag. Qed.

Lemma ignores_flag_onAlarm c name : ignores_flag (onAlarm c name).
Proof.
  unfold onAlarm.
  destruct (String.eqb name "forceStreakSync");
    [apply ignores_flag_forceSyncStreakFromDailyDev|].
  apply ignores_flag_bind; [apply ignores_flag_get; not_flag|].
  intros [result|]; [|apply ignores_flag_ret].
  destruct (notVisitedToday c result); [|apply ignores_flag_ret].
  destruct (String.eqb name "firstStreakReminder" || String.eqb name "secondStreakReminder");
    [unfold checkStreakAndNotify; ignores_flag|].
  destruct (String.eqb name "firstStreakFailsafe" || String.eqb name "secondStreakFailsafe");
    [unfold executeStreakFailsafe; ignores_flag | apply ignores_flag_ret].
Qed.

Lemma ignores_flag_clickResults c err results : ignores_flag (clickResults c err results).
Proof.
  unfold clickResults. destruct err; [apply ignores_flag_ret|].
  destruct results as [st|]; [|apply ignores_flag_ret].
  destruct (clicked st || onArticlePage st).
  - destruct (negb (is_null (streakCount st)) && negb (isNaN (streakCount st)));
      [apply ignores_flag_updateStreakWithCount | apply ignores_flag_updateStreak].
  - ignores_flag.
Qed.

Lemma ignores_flag_dispatch c ev : ignores_flag (dispatch c ev).
Proof.
  destruct ev as [|name|action|tabId complete url|l tabId complete url|k err tabId
                  |err results|k err results|k]; cbn [dispatch].
  - unfold onInstalled, setupAlarms. ignores_flag.
  - apply ignores_flag_onAlarm.
  - unfold onMessage. ignores_flag.
  - unfold onTabUpdated, handleDailyDevPageLoad, clickArticleAndUpdateStreak. ignores_flag.
  - destruct l;
      unfold articleLoadListener, manualSyncTabLoadListener, forceSyncTabLoadListener,
        failsafeTabLoadListener; ignores_flag.
  - destruct k; unfold manualSyncTabCreated, forceSyncTabCreated, failsafeTabCreated;
      ignores_flag.
  - apply ignores_flag_clickResults.
  - destruct k; try apply ignores_flag_ret.
    + unfold articleStreakResults. destruct err; [apply ignores_flag_updateStreak|].
      destruct (extracted results);
        [apply ignores_flag_updateStreakWithCount | apply ignores_flag_updateStreak].
    + unfold manualSyncResults. ignores_flag.
    + unfold forceSyncResults. ignores_flag.
  - destruct k; unfold manualSyncTimeout, forceSyncTimeout, clickArticleAndUpdateStreak;
      ignores_flag.
Qed.

Lemma agree_flag w x :
  agree w (store (<["streakMaintainedToday" := x]> (storage w)) w).
Proof.
  repeat split. intros k Hk. cbn [store storage]. now rewrite lookup_insert_ne.
Qed.

(** The stored [streakMaintainedToday] is only ever written: whatever value
    it holds, every handler makes the same platform calls and leaves the same
    values under every other key, and both popups show the same. *)
Theorem maintained_flag_is_never_read c ev hasStreakBox x w :
  let w' := store (<["streakMaintainedToday" := x]> (storage w)) w in
  effects (dispatch c ev) w' = effects (dispatch c ev) w /\
  (forall k, k <> "streakMaintainedToday" ->
     storage (run (dispatch c ev) w') !! k = storage (run (dispatch c ev) w) !! k) /\
  (Popup.initializePopup c w').1.1 = (Popup.initializePopup c w).1.1 /\
  (PopupSync.initializePopup c hasStreakBox w').1.1
  = (PopupSync.initializePopup c hasStreakBox w).1.1.
Proof.
  intros w'. pose proof (agree_flag w x) as Hw. fold w' in Hw.
  destruct (ignores_flag_dispatch c ev w w' Hw) as (_ & He & _ & _ & Hs).
  split; [exact He|]. split; [exact Hs|]. split.
  - assert (H : ignores_flag (Popup.initializePopup c))
      by (unfold Popup.initializePopup; ignores_flag).
    apply (H w w' Hw).
  - assert (H : ignores_flag (PopupSync.initializePopup c hasStreakBox))
      by (unfold PopupSync.initializePopup; ignores_flag).
    apply (H w w' Hw).
Qed.

(** ** The rest of the day after a reconciliation *)

Lemma onAlarm_quiet c name w :
  String.eqb name "forceStreakSync" = false ->
  storage w !! "lastVisit" = Some (VStr (today c)) ->
  existsb dependent_action (effects (onAlarm c name) w) = false.
Proof.
  intros Hname Hvisit. unfold effects, onAlarm. rewrite Hname.
  unfold bind, storage_get.
  destruct (lastError w (accesses w)); [reflexivity|].
  rewrite notVisitedToday_pick by in_keys.
  now rewrite (notVisitedToday_false _ _ Hvisit).
Qed.

(** "You won't receive any more reminders today": after a reconciliation
    whose read and write succeeded, by either path, any alarm other than the
    forced sync that fires later the same day sends no notification and opens
    no tab. *)
Theorem no_more_reminders_today c c' v name w :
  today c' = today c ->
  String.eqb name "forceStreakSync" = false ->
  lastError w (accesses w) = false ->
  lastError w (S (accesses w)) = false ->
  existsb dependent_action (effects (onAlarm c' name) (run (updateStreak c) w)) = false /\
  existsb dependent_action
    (effects (onAlarm c' name) (run (updateStreakWithCount c v) w)) = false.
Proof.
  intros Hday Hname E1 E2.
  pose proof (updateStreak_lastVisit c w E1 E2) as H1.
  pose proof (updateStreakWithCount_lastVisit c v w E1 E2) as H2.
  rewrite <- Hday in H1, H2.
  split; now apply onAlarm_quiet.
Qed.

Lemma no_more_reminders_today_witness :
  existsb dependent_action
    (effects (onAlarm monday_night "secondStreakFailsafe")
       (run (updateStreak monday_evening) visited_sunday)) = false.
Proof.
  apply (no_more_reminders_today monday_evening monday_night VNull
           "secondStreakFailsafe" visited_sunday);
    vm_compute; reflexivity.
Defined.

(** The forced sync alarm runs whatever the streak status: whenever its read
    succeeds it opens daily.dev in a background tab and writes nothing, and
    the callback it leaves remembers the streak as maintained exactly when
    the stored [lastVisit] is today's date. *)
Theorem forced_sync_alarm_runs_regardless c w :
  lastError w (accesses w) = false ->
  exists alreadyMaintained,
    effects (onAlarm c "forceStreakSync") w =
    [StorageGet ["lastVisit"] true;
     TabsCreate DAILY_DEV_URL false (ForceSyncTabCreated (today c) alreadyMaintained)] /\
    (alreadyMaintained = true <-> storage w !! "lastVisit" = Some (VStr (today c))) /\
    storage (run (onAlarm c "forceStreakSync") w) = storage w.
Proof.
  intros E1.
  exists (strict_eq (field (storage w) "lastVisit") (VStr (today c))).
  unfold run, effects, onAlarm. cbn [String.eqb Ascii.eqb Bool.eqb].
  unfold forceSyncStreakFromDailyDev, bind, storage_get, emit. rewrite E1.
  rewrite field_pick by in_keys. cbn [fst snd negb app count_access storage].
  split; [reflexivity|]. split; [|reflexivity].
  rewrite strict_eq_VStr. unfold field. split.
  - destruct (storage w !! "lastVisit") as [x|]; [|discriminate].
    change (default VUndefined (Some x)) with x. now intros ->.
  - now intros ->.
Qed.

Lemma forced_sync_alarm_runs_regardless_witness :
  exists alreadyMaintained,
    effects (onAlarm monday_evening "forceStreakSync") maintained_monday =
    [StorageGet ["lastVisit"] true;
     TabsCreate DAILY_DEV_URL false
       (ForceSyncTabCreated (today monday_evening) alreadyMaintained)] /\
    (alreadyMaintained = true <->
     storage maintained_monday !! "lastVisit" = Some (VStr (today monday_evening))) /\
    storage (run (onAlarm monday_evening "forceStreakSync") maintained_monday)
    = storage maintained_monday.
Proof.
  apply (forced_sync_alarm_runs_regardless monday_evening maintained_monday). reflexivity.
Defined.

(** ** A stored streak that is no number *)

(** When the last visit was yesterday and the streak key is missing or holds
    [NaN], the internal path stores [NaN] as the new streak; the popups then
    show 0. *)
Theorem missing_streak_becomes_NaN c w :
  storage w !! "lastVisit" <> Some (VStr (today c)) ->
  storage w !! "lastVisit" = Some (VStr (yesterdayString c)) ->
  storage w !! "streak" = None \/ storage w !! "streak" = Some (VNum NaN) ->
  lastError w (accesses w) = false ->
  lastError w (S (accesses w)) = false ->
  lastError w (S (S (accesses w))) = false ->
  storage (run (updateStreak c) w) !! "streak" = Some (VNum NaN) /\
  streakCountText (Popup.initializePopup c (run (updateStreak c) w)).1.1
  = Some (VNum (NInt 0)).
Proof.
  intros Hvisit Hy Hs E1 E2 E3.
  assert (Hnew : newStreak c (pick ["streak"; "lastVisit"] (storage w)) = VNum NaN).
  { unfold newStreak. rewrite !field_pick by in_keys. unfold field. rewrite Hy.
    change (default VUndefined (Some ?x)) with x.
    rewrite (proj2 (strict_eq_VStr _ _) eq_refl).
    destruct Hs as [-> | ->]; reflexivity. }
  unfold run. rewrite updateStreak_eq, E1, (notVisitedToday_true _ _ Hvisit).
  cbn zeta. rewrite E2, Hnew.
  cbn [fst snd count_access store storage].
  split; [apply internalItems_streak|].
  unfold Popup.initializePopup, bind, storage_get, ret.
  cbn [fst snd count_access store storage lastError accesses]. rewrite E3.
  cbn [fst snd]. unfold Popup.updateStreakDisplay.
  rewrite !field_pick by in_keys.
  rewrite (field_lookup _ _ _ (internalItems_streak c _ (storage w))).
  now destruct (strict_eq _ _).
Qed.

Lemma missing_streak_becomes_NaN_witness :
  storage no_streak_sunday !! "streak" = None /\
  storage (run (updateStreak monday_evening) no_streak_sunday) !! "streak"
  = Some (VNum NaN) /\
  streakCountText
    (Popup.initializePopup monday_evening
       (run (updateStreak monday_evening) no_streak_sunday)).1.1
  = Some (VNum (NInt 0)).
Proof.
  assert (Hs : storage no_streak_sunday !! "streak" = None) by (vm_compute; reflexivity).
  split; [exact Hs|].
  assert (Hv : storage no_streak_sunday !! "lastVisit"
               <> Some (VStr (today monday_evening))) by (vm_compute; discriminate).
  assert (Hy : storage no_streak_sunday !! "lastVisit"
               = Some (VStr (yesterdayString monday_evening)))
    by (vm_compute; reflexivity).
  exact (missing_streak_becomes_NaN monday_evening no_streak_sunday Hv Hy
           (or_introl Hs) eq_refl eq_refl eq_refl).
Defined.

Lemma write_failure_aborts_witness :
  storage (run (updateStreak monday_evening) (write_fails visited_sunday))
  = storage (write_fails visited_sunday) /\
  existsb dependent_action
    (effects (updateStreak monday_evening) (write_fails visited_sunday)) = false.
Proof.
  pose proof (write_failure_aborts monday_evening VNull (write_fails visited_sunday)
                eq_refl eq_refl) as (H1 & H2 & _).
  exact (conj H1 H2).
Defined.
